(** * TrendRadar: the HTML report generator ([html_generator.py])

    A shallow embedding of the fragment builders of [html_generator.py]
    and the properties of the rendering logic.

    Python values are modelled as follows.
    - [str] is a sequence of Unicode code points, [list N]; literals are
      written as UTF-8 text and decoded by [u].
    - [int] is [Z]; [f"{n}"] is the decimal representation [dec].
    - a record-like [dict] whose keys are read with [.get(key, default)]
      is a Rocq record with [option] fields; a key read with [d[key]]
      raises [KeyError] when it is absent.  A stat is modelled twice:
      [StatDict] is the dict, [Stat] the values of its three keys once
      they are read.
    - a [dict] that is iterated ([new_titles], the titles of one source)
      is the sequence of its items in insertion order.
    - a [dict] that is only looked up ([id_to_name]) is a [gmap].
    - an exception is the [Raise] arm of [result]. *)

From Stdlib Require Import ZArith NArith Ascii String DecimalString.
From stdpp Require Import base option list gmap.

Open Scope Z_scope.

(** ** Python strings *)

Module Str.

Abbreviation str := (list N).

(** Bytes of a literal. *)
Fixpoint bytes (s : string) : list N :=
  match s with
  | EmptyString => []
  | String c s' => N_of_ascii c :: bytes s'
  end.

(** Payload of a UTF-8 continuation byte. *)
Definition cont (b : N) : N := (b - 128)%N.

(** UTF-8 decoding of well-formed text. *)
Fixpoint decode (bs : list N) : str :=
  match bs with
  | [] => []
  | b :: r =>
      if (b <? 128)%N then b :: decode r
      else if (b <? 224)%N then
        match r with
        | b1 :: r1 => ((b - 192) * 64 + cont b1)%N :: decode r1
        | _ => []
        end
      else if (b <? 240)%N then
        match r with
        | b1 :: b2 :: r2 =>
            ((b - 224) * 4096 + cont b1 * 64 + cont b2)%N :: decode r2
        | _ => []
        end
      else
        match r with
        | b1 :: b2 :: b3 :: r3 =>
            ((b - 240) * 262144 + cont b1 * 4096 + cont b2 * 64 + cont b3)%N
              :: decode r3
        | _ => []
        end
  end.

(** The [str] denoted by a literal. *)
Definition u (s : string) : str := decode (bytes s).

(** The double quote, which literals of this file never contain. *)
Definition dq : str := [34%N].

(** [q s] is [s] between double quotes, as in an HTML attribute. *)
Definition q (s : str) : str := dq ++ s ++ dq.

(** [f"{n}"] for an [int]. *)
Definition dec (n : Z) : str := bytes (NilEmpty.string_of_int (Z.to_int n)).

(** [Py_UNICODE_ISSPACE], which [str.split], [str.strip] and the
    regular expression class [\s] all use. *)
Definition isspace (c : N) : bool :=
  ((9 <=? c) && (c <=? 13) || (28 <=? c) && (c <=? 32)
   || (c =? 0x85) || (c =? 0xA0) || (c =? 0x1680)
   || (0x2000 <=? c) && (c <=? 0x200A)
   || (c =? 0x2028) || (c =? 0x2029) || (c =? 0x202F)
   || (c =? 0x205F) || (c =? 0x3000))%N.

(** Longest prefix whose characters satisfy [p], and the rest. *)
Fixpoint span (p : N → bool) (s : str) : str * str :=
  match s with
  | [] => ([], [])
  | c :: s' =>
      if p c then let '(a, b) := span p s' in (c :: a, b) else ([], s)
  end.

Definition lstrip (s : str) : str := (span isspace s).2.

Definition rstrip (s : str) : str := reverse (lstrip (reverse s)).

(** [s.strip()]. *)
Definition strip (s : str) : str := rstrip (lstrip s).

(** [s.split()]: the maximal runs of non-whitespace characters.  The
    fuel bounds the number of runs and [split] supplies enough. *)
Fixpoint split_fuel (fuel : nat) (s : str) : list str :=
  match fuel with
  | O => []
  | S fuel' =>
      match lstrip s with
      | [] => []
      | t =>
          let '(w, r) := span (λ c, negb (isspace c)) t in
          w :: split_fuel fuel' r
      end
  end.

Definition split (s : str) : list str := split_fuel (S (length s)) s.

(** [x in s] for strings: [x] occurs as a contiguous run of [s]. *)
Fixpoint starts_with (x s : str) : bool :=
  match x, s with
  | [], _ => true
  | _ :: _, [] => false
  | a :: x', b :: s' => (a =? b)%N && starts_with x' s'
  end.

Fixpoint contains (x s : str) : bool :=
  starts_with x s
  || match s with
     | [] => false
     | _ :: s' => contains x s'
     end.

End Str.
Import Str.

(** ** Exceptions *)

Inductive exn :=
| KeyError (key : string)
| AttributeError (name : string)
| FileNotFoundError.

Inductive result (A : Type) :=
| Ok (a : A)
| Raise (e : exn).
Arguments Ok {A} a.
Arguments Raise {A} e.

#[global] Instance result_ret : MRet result := λ A a, Ok a.
#[global] Instance result_bind : MBind result := λ A B k r,
  match r with
  | Ok a => k a
  | Raise e => Raise e
  end.

(** [d[key]] on a record-like dict. *)
Definition subscript {A} (key : string) (field : option A) : result A :=
  match field with
  | Some a => Ok a
  | None => Raise (KeyError key)
  end.

(** The loop [for idx, x in enumerate(l, idx): acc += row(idx, x)].  A
    loop [for x in l] is the same with a body that does not read [idx]. *)
Fixpoint accumulate {A} (row : nat → A → result str) (acc : str)
    (idx : nat) (l : list A) : result str :=
  match l with
  | [] => Ok acc
  | x :: l' => r ← row idx x; accumulate row (acc ++ r) (S idx) l'
  end.

(** ** The regular expressions of the module

    A pattern is a sequence of character classes, each taken once,
    [*] times or [+] times.  Quantifiers are greedy and give characters
    back when the rest of the pattern fails, as [re] does. *)

Module Re.

Inductive piece :=
| One (p : N → bool)
| Star (p : N → bool)
| Plus (p : N → bool).

(** Try [f n], [f (n-1)], ... down to [f lo]. *)
Fixpoint backtrack (f : nat → option nat) (lo n : nat) : option nat :=
  if (n <? lo)%nat then None
  else match f n with
       | Some r => Some r
       | None =>
           match n with
           | O => None
           | S n' => backtrack f lo n'
           end
       end.

(** Length of the match of [ps] at the start of [s]. *)
Fixpoint match_here (ps : list piece) (s : str) : option nat :=
  match ps with
  | [] => Some O
  | One p :: ps' =>
      match s with
      | c :: s' => if p c then S <$> match_here ps' s' else None
      | [] => None
      end
  | Star p :: ps' =>
      backtrack (λ k, Nat.add k <$> match_here ps' (drop k s))
        0 (length (span p s).1)
  | Plus p :: ps' =>
      backtrack (λ k, Nat.add k <$> match_here ps' (drop k s))
        1 (length (span p s).1)
  end.

(** [re.match(ps, s)]: the matched text, which is also group 1 when
    the whole pattern is one group. *)
Definition re_match (ps : list piece) (s : str) : option str :=
  (λ n, take n s) <$> match_here ps s.

End Re.

(** ** Hot groups: [generate_word_group_html] *)

Definition hash : N := 35.

Definition is_hash (c : N) : bool := (c =? hash)%N.

(** The class [[^#\s]]. *)
Definition token_char (c : N) : bool := negb (is_hash c) && negb (isspace c).

(** [r'^(#\s*[^#\s]+)'] *)
Definition category_pattern : list Re.piece :=
  [Re.One is_hash; Re.Star isspace; Re.Plus token_char].

Definition display_name (word : str) : str :=
  match Re.re_match category_pattern word with
  | Some group1 => strip group1
  | None =>
      match split word with
      | part :: _ => part
      | [] => word
      end
  end.

(** [(hot_class, hot_text)] *)
Definition hot_level (count : Z) : str * str :=
  if 20 <=? count then (u "hot", u "🔥 " ++ dec count ++ u " 条")
  else if 10 <=? count then (u "warm", dec count ++ u " 条")
  else (u "normal", dec count ++ u " 条").

Definition any_in (keywords : list str) (word : str) : bool :=
  existsb (λ x, contains x word) keywords.

Definition category (word : str) : str :=
  if any_in [u "音乐"; u "演唱会"; u "抖音"; u "B站"; u "bilibili"] word
  then u "music"
  else if any_in [u "电影"; u "原神"; u "黑神话"; u "游戏"] word
  then u "entertainment"
  else if any_in [u "胖东来"; u "996"; u "调休"; u "房价"] word
  then u "social"
  else u "tech".

(** [min(r :: rs)] and [max(r :: rs)]. *)
Definition py_min (r : Z) (rs : list Z) : Z := foldl Z.min r rs.
Definition py_max (r : Z) (rs : list Z) : Z := foldl Z.max r rs.

(** [ranks and min(ranks) <= 3] picks "top", otherwise
    [ranks and min(ranks) <= 10] picks "high". *)
Definition rank_class (ranks : list Z) : str :=
  match ranks with
  | [] => []
  | r :: rs =>
      if py_min r rs <=? 3 then u "top"
      else if py_min r rs <=? 10 then u "high"
      else []
  end.

Definition rank_display (ranks : list Z) : str :=
  match ranks with
  | [] => []
  | [r] => dec r ++ u "位"
  | r :: rs => dec (py_min r rs) ++ u "-" ++ dec (py_max r rs) ++ u "位"
  end.

(** One entry of [stat["titles"]], and of [source["titles"]] in the
    sequence shape of [new_titles]. *)
Record TitleInfo := {
  ti_title : option str;
  ti_source_name : option str;
  ti_ranks : option (list Z);
  ti_time_display : option str;
  ti_url : option str;
  ti_is_new : option bool
}.

(** The values of the three keys of a stat, once lines 97-99 of
    [generate_word_group_html] have read them; the dict itself, in which
    a key can be absent, is [StatDict] below. *)
Record Stat := {
  st_word : str;
  st_count : Z;
  st_titles : list TitleInfo
}.

(** The value of [time_display] computed from [times]. *)
Definition join_times (times : list str) : str :=
  match times with
  | [] => []
  | [t] => t
  | t :: _ => t ++ u "~" ++ default t (last times)
  end.

(** The f-string appended to [news_items_html]. *)
Definition news_item_row (is_new : bool) (rank_class : str) (idx : nat)
    (source rank_display time_display url title : str) : str :=
  u "
                <div class=" ++ q (u "news-item" ++ (if is_new then u " new" else [])) ++ u ">
                    <div class=" ++ q (u "news-rank " ++ rank_class) ++ u ">" ++ dec (Z.of_nat idx) ++ u "</div>
                    <div class=" ++ q (u "news-content") ++ u ">
                        <div class=" ++ q (u "news-meta") ++ u ">
                            <span class=" ++ q (u "news-source") ++ u ">" ++ source ++ u "</span>
                            <span>" ++ rank_display ++ u "</span>
                            <span>" ++ time_display ++ u "</span>
                        </div>
                        <h3 class=" ++ q (u "news-title") ++ u ">
                            <a href=" ++ q (url) ++ u " class=" ++ q (u "news-link") ++ u " target=" ++ q (u "_blank") ++ u ">" ++ title ++ u "</a>
                        </h3>
                    </div>
                    " ++ (if is_new then u "<span class=" ++ q (u "new-badge") ++ u ">NEW</span>" else []) ++ u "
                </div>".

(** The body of the loop over [enumerate(titles[:20], 1)]. *)
Definition news_item_html (idx : nat) (title_info : TitleInfo) : result str :=
  title ← subscript "title" (ti_title title_info);
  let source := default (u "未知平台") (ti_source_name title_info) in
  let ranks := default [] (ti_ranks title_info) in
  let times := [default [] (ti_time_display title_info)] in
  let url := default [] (ti_url title_info) in
  let rank_class := rank_class ranks in
  let rank_display := rank_display ranks in
  let time_display := join_times times in
  let is_new := default false (ti_is_new title_info) in
  Ok (news_item_row is_new rank_class idx source rank_display time_display
        url title).

(** The final f-string of [generate_word_group_html]. *)
Definition group_html (category display_name hot_class hot_text
    news_items_html : str) : str :=
  u "
            <div class=" ++ q (u "hot-group") ++ u " data-category=" ++ q (category) ++ u ">
                <div class=" ++ q (u "group-header") ++ u " onclick=" ++ q (u "toggleGroup(this)") ++ u ">
                    <div class=" ++ q (u "group-info") ++ u ">
                        <span class=" ++ q (u "group-name") ++ u ">" ++ display_name ++ u "</span>
                        <span class=" ++ q (u "group-count " ++ hot_class) ++ u ">" ++ hot_text ++ u "</span>
                    </div>
                    <span class=" ++ q (u "expand-icon") ++ u ">▼</span>
                </div>
                <div class=" ++ q (u "news-list") ++ u ">
                    " ++ news_items_html ++ u "
                </div>
            </div>".

(** [id_to_name] is a parameter of the function and is not read. *)
Definition generate_word_group_html (stat : Stat)
    (id_to_name : option (gmap str str)) : result str :=
  let word := st_word stat in
  let count := st_count stat in
  let titles := st_titles stat in
  let display_name := display_name word in
  let '(hot_class, hot_text) := hot_level count in
  let category := category word in
  news_items_html ← accumulate news_item_html [] 1 (take 20 titles);
  Ok (group_html category display_name hot_class hot_text news_items_html).

(** One element of [report_data["stats"]], a dict: each of the three
    keys can be absent, and [stat[key]] then raises [KeyError]. *)
Record StatDict := {
  sk_word : option str;
  sk_count : option Z;
  sk_titles : option (list TitleInfo)
}.

(** [word = stat["word"]], [count = stat["count"]] and
    [titles = stat["titles"]], in this order. *)
Definition read_stat (stat : StatDict) : result Stat :=
  word ← subscript "word" (sk_word stat);
  count ← subscript "count" (sk_count stat);
  titles ← subscript "titles" (sk_titles stat);
  Ok {| st_word := word; st_count := count; st_titles := titles |}.

(** [generate_word_group_html] on the dict: the three reads, then the
    rest of the function on the values read. *)
Definition generate_word_group_html_dict (stat : StatDict)
    (id_to_name : option (gmap str str)) : result str :=
  values ← read_stat stat;
  generate_word_group_html values id_to_name.

(** ** New items: [generate_new_news_html] *)

(** [title_data] in the mapping shape of [new_titles]. *)
Record TitleData := {
  td_rank : option Z;
  td_url : option str
}.

(** One element of the sequence shape of [new_titles]. *)
Record SourceData := {
  sd_source_name : option str;
  sd_titles : option (list TitleInfo)
}.

(** The two shapes of [new_titles].  A dict is the sequence of its
    items, in insertion order. *)
Inductive NewTitles :=
| NewDict (sources : list (str * list (str * TitleData)))
| NewList (sources : list SourceData).

(** [id_to_name.get(source_id, source_id)]; [None] has no [get]. *)
Definition id_to_name_get (id_to_name : option (gmap str str))
    (source_id : str) : result str :=
  match id_to_name with
  | Some names => Ok (default source_id (names !! source_id))
  | None => Raise (AttributeError "get")
  end.

(** The class chosen from [rank] in both arms. *)
Definition new_rank_class (rank : Z) : str :=
  if rank <=? 3 then u "top"
  else if rank <=? 10 then u "high"
  else [].

(** The f-string appended to [source_items_html] in the mapping arm. *)
Definition dict_item_row (rank_class : str) (idx : nat) (rank : Z)
    (url title : str) : str :=
  u "
                        <div class=" ++ q (u "new-item") ++ u ">
                            <div class=" ++ q (u "new-item-rank " ++ rank_class) ++ u ">" ++ dec (Z.of_nat idx) ++ u "</div>
                            <div class=" ++ q (u "new-item-rank " ++ rank_class) ++ u ">" ++ dec rank ++ u "</div>
                            <div class=" ++ q (u "new-item-content") ++ u ">
                                <div class=" ++ q (u "new-item-title") ++ u ">
                                    <a href=" ++ q (url) ++ u " class=" ++ q (u "news-link") ++ u " target=" ++ q (u "_blank") ++ u ">" ++ title ++ u "</a>
                                </div>
                            </div>
                        </div>".

(** Body of the inner loop of the mapping arm. *)
Definition dict_item_html (idx : nat) (item : str * TitleData) : result str :=
  let '(title, title_data) := item in
  let rank := default 0 (td_rank title_data) in
  let url := default [] (td_url title_data) in
  let rank_class := new_rank_class rank in
  Ok (dict_item_row rank_class idx rank url title).

(** The f-string appended to [new_items_html] in the mapping arm. *)
Definition dict_source_group (source_name : str) (len_titles : nat)
    (source_items_html : str) : str :=
  u "
                <div class=" ++ q (u "new-source-group") ++ u ">
                    <div class=" ++ q (u "new-source-title") ++ u ">" ++ source_name ++ u " · " ++ dec (Z.of_nat len_titles) ++ u "条</div>
                    " ++ source_items_html ++ u "
                </div>".

(** Body of the outer loop of the mapping arm. *)
Definition dict_source_html (id_to_name : option (gmap str str)) (_ : nat)
    (item : str * list (str * TitleData)) : result str :=
  let '(source_id, titles) := item in
  match titles with
  | [] => Ok []
  | _ =>
      source_name ← id_to_name_get id_to_name source_id;
      source_items_html ← accumulate dict_item_html [] 1 (take 10 titles);
      Ok (dict_source_group source_name (length titles) source_items_html)
  end.

(** [title_info.get("ranks", [0])[0] if title_info.get("ranks") else 0] *)
Definition first_rank (title_info : TitleInfo) : Z :=
  match ti_ranks title_info with
  | Some (r :: _) => r
  | _ => 0
  end.

(** The f-string appended to [source_items_html] in the sequence arm. *)
Definition list_item_row (rank_class : str) (idx : nat) (rank : Z)
    (url title : str) : str :=
  u "
                        <div class=" ++ q (u "new-item") ++ u ">
                            <div class=" ++ q (u "new-item-rank " ++ rank_class) ++ u ">" ++ dec (Z.of_nat idx) ++ u "</div>
                            <div class=" ++ q (u "new-item-rank " ++ rank_class) ++ u ">" ++ dec rank ++ u "</div>
                            <div class=" ++ q (u "new-item-content") ++ u ">
                                <div class=" ++ q (u "new-item-title") ++ u ">
                                    <a href=" ++ q (url) ++ u " class=" ++ q (u "news-link") ++ u " target=" ++ q (u "_blank") ++ u ">" ++ title ++ u "</a>
                                </div>
                            </div>
                        </div>".

(** Body of the inner loop of the sequence arm. *)
Definition list_item_html (idx : nat) (title_info : TitleInfo) : result str :=
  let title := default [] (ti_title title_info) in
  let rank := first_rank title_info in
  let url := default [] (ti_url title_info) in
  let rank_class := new_rank_class rank in
  Ok (list_item_row rank_class idx rank url title).

(** The f-string appended to [new_items_html] in the sequence arm. *)
Definition list_source_group (source_name : str) (len_titles : nat)
    (source_items_html : str) : str :=
  u "
                <div class=" ++ q (u "new-source-group") ++ u ">
                    <div class=" ++ q (u "new-source-title") ++ u ">" ++ source_name ++ u " · " ++ dec (Z.of_nat len_titles) ++ u "条</div>
                    " ++ source_items_html ++ u "
                </div>".

(** Body of the outer loop of the sequence arm. *)
Definition list_source_html (_ : nat) (source_data : SourceData) : result str :=
  let source_name := default (u "未知平台") (sd_source_name source_data) in
  let titles := default [] (sd_titles source_data) in
  match titles with
  | [] => Ok []
  | _ =>
      source_items_html ← accumulate list_item_html [] 1 (take 10 titles);
      Ok (list_source_group source_name (length titles) source_items_html)
  end.

(** [sum(len(titles) for titles in new_titles.values())] and
    [sum(len(source.get("titles", [])) for source in new_titles)]. *)
Definition total_count (new_titles : NewTitles) : Z :=
  match new_titles with
  | NewDict sources => Z.of_nat (sum_list_with (λ item, length item.2) sources)
  | NewList sources =>
      Z.of_nat (sum_list_with (λ source, length (default [] (sd_titles source))) sources)
  end.

(** The final f-string of [generate_new_news_html]. *)
Definition section_html (total_count : Z) (new_items_html : str) : str :=
  u "
            <div class=" ++ q (u "new-section") ++ u ">
                <div class=" ++ q (u "new-section-title") ++ u ">本次新增热点 (共 " ++ dec total_count ++ u " 条)</div>
                " ++ new_items_html ++ u "
            </div>".

(** The returned text.  The two [print] calls write to standard output
    and do not affect it. *)
Definition generate_new_news_html (new_titles : NewTitles)
    (id_to_name : option (gmap str str)) : result str :=
  match new_titles with
  | NewDict [] | NewList [] => Ok []
  | NewDict sources =>
      new_items_html ← accumulate (dict_source_html id_to_name) [] 0 sources;
      Ok (section_html (total_count new_titles) new_items_html)
  | NewList sources =>
      new_items_html ← accumulate list_source_html [] 0 sources;
      Ok (section_html (total_count new_titles) new_items_html)
  end.

(** ** The report: [render_html_report] *)

Record ReportData := {
  rd_stats : option (list Stat)
}.

(** The keyword arguments of [template.substitute]. *)
Record Slots := {
  total_titles : Z;
  hot_news_count : Z;
  word_count : Z;
  update_time : str;
  generation_time : str;
  error_section : str;
  word_groups : str;
  new_news_section : str;
  save_script : str
}.

(** The text [error_section] starts from when [failed_ids] is truthy. *)
Definition error_section_open : str :=
  u "
        <div class=" ++ q (u "error-section") ++ u ">
            <div class=" ++ q (u "error-title") ++ u ">获取失败的平台</div>
            <ul class=" ++ q (u "error-list") ++ u ">".

(** The f-string appended for one failed id. *)
Definition error_item (failed_id : str) : str :=
  u "<li class='error-item'>" ++ failed_id ++ u "</li>".

(** The text appended after the loop. *)
Definition error_section_close : str :=
  u "
            </ul>
        </div>".

(** [error_section] as [render_html_report] builds it. *)
Definition build_error_section (failed_ids : option (list str)) : str :=
  match failed_ids with
  | None | Some [] => []
  | Some ids =>
      foldl (λ acc failed_id, acc ++ error_item failed_id)
        error_section_open ids
      ++ error_section_close
  end.

(** [word_groups_html] for stats whose three keys are present: one block
    per stat whose count is positive.  [build_word_groups_dict] below is
    the loop on the dicts themselves. *)
Definition build_word_groups (report_data : ReportData)
    (id_to_name : option (gmap str str)) : result str :=
  accumulate
    (λ _ stat,
       if 0 <? st_count stat then generate_word_group_html stat id_to_name
       else Ok [])
    [] 0 (default [] (rd_stats report_data)).

(** [any(len(titles) > 0 ...)] for either shape. *)
Definition has_titles (new_titles : NewTitles) : bool :=
  match new_titles with
  | NewDict sources => existsb (λ item, (0 <? length item.2)%nat) sources
  | NewList sources =>
      existsb (λ source, (0 <? length (default [] (sd_titles source)))%nat)
        sources
  end.

(** [new_news_section] as [render_html_report] builds it. *)
Definition build_new_news_section (new_titles : option NewTitles)
    (id_to_name : option (gmap str str)) : result str :=
  match new_titles with
  | None | Some (NewDict []) | Some (NewList []) => Ok []
  | Some new_titles =>
      if has_titles new_titles
      then generate_new_news_html new_titles id_to_name
      else Ok []
  end.

Section Report.

(** What the function reads from its environment: the template file,
    the clock, already formatted, and the save script, a constant. *)
Variable load_template : result (Slots → result str).
Variables now_update_time now_generation_time : str.
Variable get_save_script : str.

(** The function on stats whose three keys are present;
    [render_html_report_dict] below admits stats that lack a key.
    [mode], [is_daily_summary] and [update_info] are not read. *)
Definition render_html_report (report_data : ReportData)
    (total_titles hot_news_count word_count : Z)
    (failed_ids : option (list str)) (new_titles : option NewTitles)
    (id_to_name : option (gmap str str)) : result str :=
  template ← load_template;
  let error_section := build_error_section failed_ids in
  word_groups_html ← build_word_groups report_data id_to_name;
  new_news_section ← build_new_news_section new_titles id_to_name;
  template {|
    total_titles := total_titles;
    hot_news_count := hot_news_count;
    word_count := word_count;
    update_time := now_update_time;
    generation_time := now_generation_time;
    error_section := error_section;
    word_groups := word_groups_html;
    new_news_section := new_news_section;
    save_script := get_save_script
  |}.

End Report.

(** *** The report on stats that are dicts *)

Record ReportDict := {
  rk_stats : option (list StatDict)
}.

(** The body of the loop over the stats: [stat["count"] > 0] is read
    first, then the stat is rendered. *)
Definition stat_block (id_to_name : option (gmap str str)) (_ : nat)
    (stat : StatDict) : result str :=
  count ← subscript "count" (sk_count stat);
  if 0 <? count then generate_word_group_html_dict stat id_to_name
  else Ok [].

(** [word_groups_html] when a stat can lack a key. *)
Definition build_word_groups_dict (report_data : ReportDict)
    (id_to_name : option (gmap str str)) : result str :=
  accumulate (stat_block id_to_name) [] 0
    (default [] (rk_stats report_data)).

Section ReportDict.

(** The environment, as in [Report]. *)
Variable load_template : result (Slots → result str).
Variables now_update_time now_generation_time : str.
Variable get_save_script : str.

(** [render_html_report] when a stat can lack a key; everything but the
    hot groups is as in the section above. *)
Definition render_html_report_dict (report_data : ReportDict)
    (total_titles hot_news_count word_count : Z)
    (failed_ids : option (list str)) (new_titles : option NewTitles)
    (id_to_name : option (gmap str str)) : result str :=
  template ← load_template;
  let error_section := build_error_section failed_ids in
  word_groups_html ← build_word_groups_dict report_data id_to_name;
  new_news_section ← build_new_news_section new_titles id_to_name;
  template {|
    total_titles := total_titles;
    hot_news_count := hot_news_count;
    word_count := word_count;
    update_time := now_update_time;
    generation_time := now_generation_time;
    error_section := error_section;
    word_groups := word_groups_html;
    new_news_section := new_news_section;
    save_script := get_save_script
  |}.

End ReportDict.

(** * Specifications

    The predicates in which the properties below are stated. *)

(** [rows_from row i l rows]: [rows] are the texts [row] produces for the
    elements of [l], in order, numbered from [i]. *)
Inductive rows_from {A} (row : nat → A → result str) :
    nat → list A → list str → Prop :=
| rows_nil i : rows_from row i [] []
| rows_cons i x l r rows :
    row i x = Ok r →
    rows_from row (S i) l rows →
    rows_from row i (x :: l) (r :: rows).

(** [m] is the least, respectively the greatest, element of [l]. *)
Definition is_min (m : Z) (l : list Z) : Prop := m ∈ l ∧ Forall (λ x, m ≤ x) l.
Definition is_max (m : Z) (l : list Z) : Prop := m ∈ l ∧ Forall (λ x, x ≤ m) l.

(** Every character of [s] is in the class [p]. *)
Definition all_in (p : N → bool) (s : str) : Prop := Forall (λ c, p c = true) s.

(** [s] is empty or starts with a character outside the class [p]. *)
Definition stops (p : N → bool) (s : str) : Prop :=
  match s with
  | [] => True
  | c :: _ => p c = false
  end.

(** The characters [str.split] keeps. *)
Definition nonspace (c : N) : bool := negb (isspace c).

(** What the pattern captures, computed by two runs: the whitespace
    after the hash, then the token. *)
Definition leading_tag (word : str) : option str :=
  match word with
  | [] => None
  | c :: s =>
      if is_hash c then
        let ws := (span isspace s).1 in
        match (span token_char (span isspace s).2).1 with
        | [] => None
        | tok => Some (c :: ws ++ tok)
        end
      else None
  end.

(** [word] starts with a hash, optional whitespace, then a character
    that is neither a hash nor whitespace. *)
Definition tagged (word : str) : Prop :=
  ∃ ws c rest,
    word = hash :: ws ++ c :: rest ∧ all_in isspace ws ∧ token_char c = true.

(** The display name in the words of the specification. *)
Inductive display_spec : str → str → Prop :=
| display_tag ws tok rest :
    all_in isspace ws → tok ≠ [] → all_in token_char tok →
    stops token_char rest →
    display_spec (hash :: ws ++ tok ++ rest) (strip (hash :: ws ++ tok))
| display_first ws part rest :
    ¬ tagged (ws ++ part ++ rest) →
    all_in isspace ws → part ≠ [] → all_in nonspace part →
    stops nonspace rest →
    display_spec (ws ++ part ++ rest) part
| display_word word :
    ¬ tagged word → all_in isspace word → display_spec word word.

(** The text appended to [new_items_html] for one source of the mapping
    shape: nothing for a source without titles, otherwise a group whose
    header shows the number of all its titles, over the first ten. *)
Definition dict_group_of (id_to_name : option (gmap str str))
    (item : str * list (str * TitleData)) (group : str) : Prop :=
  match item.2 with
  | [] => group = []
  | _ =>
      ∃ source_name rows,
        id_to_name_get id_to_name item.1 = Ok source_name
        ∧ rows_from dict_item_html 1 (take 10 item.2) rows
        ∧ group = dict_source_group source_name (length item.2) (concat rows)
  end.

(** The same for one source of the sequence shape. *)
Definition list_group_of (source_data : SourceData) (group : str) : Prop :=
  match default [] (sd_titles source_data) with
  | [] => group = []
  | titles =>
      ∃ rows,
        rows_from list_item_html 1 (take 10 titles) rows
        ∧ group = list_source_group
                    (default (u "未知平台") (sd_source_name source_data))
                    (length titles) (concat rows)
  end.

(** A title of the mapping shape and the record that stands for it in
    the sequence shape: the same title and url, and the rank as the only
    element of [ranks]. *)
Definition title_equiv (item : str * TitleData) (title_info : TitleInfo) : Prop :=
  ∃ rank url,
    item.2 = {| td_rank := Some rank; td_url := Some url |}
    ∧ ti_title title_info = Some item.1
    ∧ ti_url title_info = Some url
    ∧ ti_ranks title_info = Some [rank].

(** A source of the mapping shape and the record that stands for it:
    the name is the one [id_to_name] resolves the id to. *)
Definition source_equiv (names : gmap str str)
    (item : str * list (str * TitleData)) (source_data : SourceData) : Prop :=
  sd_source_name source_data = Some (default item.1 (names !! item.1))
  ∧ ∃ titles,
      sd_titles source_data = Some titles ∧ Forall2 title_equiv item.2 titles.

Definition shape_equiv (names : gmap str str)
    (mapping : list (str * list (str * TitleData)))
    (sequence : list SourceData) : Prop :=
  Forall2 (source_equiv names) mapping sequence.

(** The sequence that stands for a mapping. *)
Definition title_of_item (item : str * TitleData) : TitleInfo :=
  {| ti_title := Some item.1; ti_source_name := None;
     ti_ranks := (λ rank, [rank]) <$> td_rank item.2;
     ti_time_display := None; ti_url := td_url item.2; ti_is_new := None |}.

Definition source_of_item (names : gmap str str)
    (item : str * list (str * TitleData)) : SourceData :=
  {| sd_source_name := Some (default item.1 (names !! item.1));
     sd_titles := Some (title_of_item <$> item.2) |}.

(** [x] occurs in [s] as a contiguous run: [x in s]. *)
Definition occurs (x s : str) : Prop := ∃ pre post, s = pre ++ x ++ post.

(** The keyword lists of [generate_word_group_html], in the order in
    which they are tried. *)
Definition music_keywords : list str :=
  [u "音乐"; u "演唱会"; u "抖音"; u "B站"; u "bilibili"].
Definition entertainment_keywords : list str :=
  [u "电影"; u "原神"; u "黑神话"; u "游戏"].
Definition social_keywords : list str :=
  [u "胖东来"; u "996"; u "调休"; u "房价"].

(** [word] contains one of [keywords]. *)
Definition has_keyword (keywords : list str) (word : str) : Prop :=
  ∃ x, x ∈ keywords ∧ occurs x word.

(** The record has no ["title"] key. *)
Definition untitled (title_info : TitleInfo) : Prop := ti_title title_info = None.

(** The stats [render_html_report] renders: those whose count is positive. *)
Definition positive_stats (stats : list Stat) : list Stat :=
  filter (λ stat, 0 < st_count stat) stats.

(** The source has at least one title. *)
Definition dict_titled (item : str * list (str * TitleData)) : Prop :=
  item.2 ≠ [].
Definition list_titled (source_data : SourceData) : Prop :=
  default [] (sd_titles source_data) ≠ [].

(** Each of the first 20 title records of the stat has a title. *)
Definition titles_present (stat : Stat) : Prop :=
  Forall (λ title_info, is_Some (ti_title title_info))
    (take 20 (st_titles stat)).

(** The dict that has the three keys, with the values of [stat]. *)
Definition stat_dict (stat : Stat) : StatDict :=
  {| sk_word := Some (st_word stat); sk_count := Some (st_count stat);
     sk_titles := Some (st_titles stat) |}.

Definition report_dict (report_data : ReportData) : ReportDict :=
  {| rk_stats :=
       (λ stats : list Stat, stat_dict <$> stats) <$> rd_stats report_data |}.

(** The stat does not fail the report: it has a count and, when the
    count is positive, a word and titles whose first 20 records each
    have a title. *)
Definition stat_renders (stat : StatDict) : Prop :=
  ∃ count,
    sk_count stat = Some count
    ∧ (0 < count →
       is_Some (sk_word stat)
       ∧ ∃ titles,
           sk_titles stat = Some titles
           ∧ Forall (λ title_info, is_Some (ti_title title_info))
               (take 20 titles)).


(** * Sample inputs *)

Definition stat_hot : Stat :=
  {| st_word := u "#财经 重要新闻"; st_count := 20; st_titles := [] |}.

Definition title_two_ranks : TitleInfo :=
  {| ti_title := Some (u "t1"); ti_source_name := None;
     ti_ranks := Some [2; 5]; ti_time_display := None; ti_url := None;
     ti_is_new := None |}.

Definition title_no_ranks : TitleInfo :=
  {| ti_title := Some (u "t1"); ti_source_name := None; ti_ranks := None;
     ti_time_display := None; ti_url := Some (u "u"); ti_is_new := None |}.

Definition title_untitled : TitleInfo :=
  {| ti_title := None; ti_source_name := None; ti_ranks := None;
     ti_time_display := None; ti_url := None; ti_is_new := None |}.

Definition stat_long : Stat :=
  {| st_word := u "重要新闻 其他"; st_count := 21;
     st_titles := replicate 20 title_two_ranks ++ [title_untitled] |}.

Definition titles_long : list (str * TitleData) :=
  ((λ n : Z, (u "t" ++ dec n, {| td_rank := Some n; td_url := Some (u "u") |}))
     <$> [1; 2; 3; 4; 5; 6; 7; 8; 9; 10])
  ++ [(u "t11", {| td_rank := None; td_url := None |})].

Definition title_only : TitleInfo :=
  {| ti_title := Some (u "t1"); ti_source_name := None; ti_ranks := None;
     ti_time_display := None; ti_url := None; ti_is_new := None |}.

Definition new_titles_long : NewTitles :=
  NewDict [(u "src1", titles_long); (u "src2", [])].

Definition names_sample : gmap str str := {[ u "src1" := u "微博" ]}.

Definition mapping_sample : list (str * list (str * TitleData)) :=
  [(u "src1", [(u "t1", {| td_rank := Some 1; td_url := Some (u "u") |})])].

Definition sequence_sample : list SourceData :=
  [{| sd_source_name := Some (u "src1");
      sd_titles :=
        Some [{| ti_title := Some (u "t1"); ti_source_name := None;
                 ti_ranks := Some [1]; ti_time_display := None;
                 ti_url := Some (u "u"); ti_is_new := None |}] |}].

Definition stat_broken : Stat :=
  {| st_word := u "#财经"; st_count := 3;
     st_titles := [title_two_ranks; title_untitled; title_two_ranks] |}.

Definition stat_empty_count : Stat :=
  {| st_word := u "游戏"; st_count := 0; st_titles := [title_untitled] |}.

Definition title_ranked : TitleInfo :=
  {| ti_title := Some (u "t1"); ti_source_name := None;
     ti_ranks := Some [4; 9; 4]; ti_time_display := None; ti_url := None;
     ti_is_new := None |}.

(** A template that shows the hot groups and the new-items section. *)
Definition template_sample (slots : Slots) : result str :=
  Ok (word_groups slots ++ new_news_section slots).

Definition stat_without_count : StatDict :=
  {| sk_word := Some (u "#财经"); sk_count := None; sk_titles := Some [] |}.

Definition stat_skipped : StatDict :=
  {| sk_word := None; sk_count := Some 0; sk_titles := None |}.

(** * Properties *)

(** ** Examples *)

Example u_ascii : u "top" = [116; 111; 112]%N.
Proof. reflexivity. Qed.

Example u_cjk : u "位" = [0x4F4D]%N.
Proof. reflexivity. Qed.

Example u_fire : u "🔥 " = [0x1F525; 32]%N.
Proof. reflexivity. Qed.

Example dec_examples : dec 0 = u "0" ∧ dec 20 = u "20" ∧ dec (-7) = u "-7".
Proof. repeat split; reflexivity. Qed.

Example split_example :
  split (u "重要新闻 其他") = [u "重要新闻"; u "其他"].
Proof. reflexivity. Qed.

Example split_ideographic_space :
  split (u " a　b  ") = [u "a"; u "b"].
Proof. reflexivity. Qed.

Example strip_example : strip (u "  #财经 ") = u "#财经".
Proof. reflexivity. Qed.

Example display_name_tag : display_name (u "#财经 重要新闻") = u "#财经".
Proof. reflexivity. Qed.

Example display_name_plain : display_name (u "重要新闻 其他") = u "重要新闻".
Proof. reflexivity. Qed.

Example display_name_spaced_tag : display_name (u "# 财经#x") = u "# 财经".
Proof. reflexivity. Qed.

Example display_name_blank : display_name (u "  ") = u "  ".
Proof. reflexivity. Qed.

Example rank_example :
  rank_display [2; 5] = u "2-5位" ∧ rank_class [2; 5] = u "top".
Proof. split; reflexivity. Qed.

(** [ok_inv H] turns [H : Ok a ≫= (λ x, Ok (f x)) = Ok b] into [f a = b]
    and replaces [b]. *)
Ltac ok_inv H := cbn [mbind result_bind] in H; injection H as <-.

(** ** Loops that append to a string *)

Lemma rows_from_length {A} (row : nat → A → result str) i l rows :
  rows_from row i l rows → length rows = length l.
Proof. induction 1; simpl; congruence. Qed.

Lemma rows_from_lookup {A} (row : nat → A → result str) i l rows k x :
  rows_from row i l rows → l !! k = Some x →
  ∃ r, rows !! k = Some r ∧ row (i + k)%nat x = Ok r.
Proof.
  intros H. revert k. induction H as [|i y l r rows Hr _ IH]; intros k Hk.
  - discriminate.
  - destruct k as [|k]; simpl in Hk.
    + injection Hk as ->. exists r. rewrite Nat.add_0_r. done.
    + destruct (IH k Hk) as (r' & ? & ?). exists r'.
      replace (i + S k)%nat with (S i + k)%nat by lia. done.
Qed.

Lemma accumulate_rows {A} (row : nat → A → result str) acc i l rows :
  rows_from row i l rows → accumulate row acc i l = Ok (acc ++ concat rows).
Proof.
  intros H. revert acc. induction H as [|i x l r rows Hr _ IH]; intros acc.
  - simpl. by rewrite app_nil_r.
  - simpl. rewrite Hr. simpl. rewrite IH. by rewrite <- app_assoc.
Qed.

Lemma accumulate_inv {A} (row : nat → A → result str) acc i l out :
  accumulate row acc i l = Ok out →
  ∃ rows, rows_from row i l rows ∧ out = acc ++ concat rows.
Proof.
  revert acc i. induction l as [|x l IH]; intros acc i H; simpl in H.
  - injection H as <-. exists []. split; [constructor | by rewrite app_nil_r].
  - destruct (row i x) as [r|e] eqn:Hr; [|discriminate]. simpl in H.
    destruct (IH _ _ H) as (rows & Hrows & ->).
    exists (r :: rows). split; [by constructor|].
    simpl. by rewrite <- app_assoc.
Qed.

Lemma accumulate_total {A} (row : nat → A → result str) acc i l :
  (∀ k x, x ∈ l → ∃ r, row k x = Ok r) →
  ∃ out, accumulate row acc i l = Ok out.
Proof.
  revert acc i. induction l as [|x l IH]; intros acc i H; simpl.
  - eauto.
  - destruct (H i x) as [r ->]; [by left|]. simpl.
    apply IH. intros k y Hy. apply H. by right.
Qed.

Lemma accumulate_index {A} (row : nat → A → result str) acc i j l :
  (∀ k k' x, row k x = row k' x) →
  accumulate row acc i l = accumulate row acc j l.
Proof.
  intros Hrow. revert acc i j. induction l as [|x l IH]; intros acc i j; [done|].
  cbn [accumulate]. rewrite (Hrow i j x).
  destruct (row j x); [|done]. cbn [mbind result_bind]. apply IH.
Qed.

Lemma foldl_append {A} (f : A → str) (acc : str) (l : list A) :
  foldl (λ acc x, acc ++ f x) acc l = acc ++ concat (f <$> l).
Proof.
  revert acc. induction l as [|x l IH]; intros acc; simpl.
  - by rewrite app_nil_r.
  - rewrite IH. by rewrite <- app_assoc.
Qed.

(** ** Minimum and maximum of the ranks *)

Lemma py_min_spec r rs : is_min (py_min r rs) (r :: rs).
Proof.
  unfold py_min. revert r. induction rs as [|x rs IH]; intros r; simpl.
  - split; [by left | repeat constructor; lia].
  - destruct (IH (Z.min r x)) as [Hin Hle]. split.
    + apply elem_of_cons in Hin as [->|Hin].
      * destruct (Z.min_spec r x) as [[_ ->]|[_ ->]]; [by left | right; by left].
      * right. by right.
    + apply Forall_cons in Hle as [H0 Hle].
      repeat constructor; [lia | lia | done].
Qed.

Lemma py_max_spec r rs : is_max (py_max r rs) (r :: rs).
Proof.
  unfold py_max. revert r. induction rs as [|x rs IH]; intros r; simpl.
  - split; [by left | repeat constructor; lia].
  - destruct (IH (Z.max r x)) as [Hin Hle]. split.
    + apply elem_of_cons in Hin as [->|Hin].
      * destruct (Z.max_spec r x) as [[_ ->]|[_ ->]]; [right; by left | by left].
      * right. by right.
    + apply Forall_cons in Hle as [H0 Hle].
      repeat constructor; [lia | lia | done].
Qed.

Lemma is_min_unique m m' l : is_min m l → is_min m' l → m = m'.
Proof.
  intros [Hin Hle] [Hin' Hle']. rewrite Forall_forall in Hle, Hle'.
  specialize (Hle _ Hin'). specialize (Hle' _ Hin). lia.
Qed.

Lemma is_max_unique m m' l : is_max m l → is_max m' l → m = m'.
Proof.
  intros [Hin Hle] [Hin' Hle']. rewrite Forall_forall in Hle, Hle'.
  specialize (Hle _ Hin'). specialize (Hle' _ Hin). lia.
Qed.

(** ** The count badge of a hot group *)

Example hot_level_19 : hot_level 19 = (u "warm", u "19 条").
Proof. reflexivity. Qed.

Example hot_level_20 : hot_level 20 = (u "hot", u "🔥 20 条").
Proof. reflexivity. Qed.

(** C2: the block rendered for a stat carries the class "hot" and the
    text "🔥 {count} 条" when count >= 20, the class "warm" and the text
    "{count} 条" when 10 <= count < 20, and the class "normal" with the
    same text otherwise. *)
Theorem hot_badge_by_count (stat : Stat) id_to_name html :
  generate_word_group_html stat id_to_name = Ok html →
  ∃ hot_class hot_text items,
    html = group_html (category (st_word stat)) (display_name (st_word stat))
             hot_class hot_text items
    ∧ (20 ≤ st_count stat →
       hot_class = u "hot"
       ∧ hot_text = u "🔥 " ++ dec (st_count stat) ++ u " 条")
    ∧ (10 ≤ st_count stat < 20 →
       hot_class = u "warm" ∧ hot_text = dec (st_count stat) ++ u " 条")
    ∧ (st_count stat < 10 →
       hot_class = u "normal" ∧ hot_text = dec (st_count stat) ++ u " 条").
Proof.
  unfold generate_word_group_html, hot_level. intros H.
  destruct (Z.leb_spec 20 (st_count stat)), (Z.leb_spec 10 (st_count stat));
    (destruct (accumulate _ _ _ _) as [items|e]; [|discriminate]);
    simpl in H; injection H as <-;
    eexists _, _, items; (split; [reflexivity|]);
    repeat split; intros; first [lia | reflexivity].
Qed.

Lemma hot_badge_by_count_witness :
  ∃ html, generate_word_group_html stat_hot None = Ok html
    ∧ ∃ hot_class hot_text items,
        html = group_html (category (st_word stat_hot))
                 (display_name (st_word stat_hot)) hot_class hot_text items
        ∧ (20 ≤ st_count stat_hot →
           hot_class = u "hot"
           ∧ hot_text = u "🔥 " ++ dec (st_count stat_hot) ++ u " 条")
        ∧ (10 ≤ st_count stat_hot < 20 →
           hot_class = u "warm" ∧ hot_text = dec (st_count stat_hot) ++ u " 条")
        ∧ (st_count stat_hot < 10 →
           hot_class = u "normal"
           ∧ hot_text = dec (st_count stat_hot) ++ u " 条").
Proof.
  eexists. split; [reflexivity|].
  apply (hot_badge_by_count stat_hot None). reflexivity.
Defined.

(** ** Rank class and rank display of a hot-group item *)

(** C4: an item without ranks has an empty rank display and no rank
    class; one rank r is displayed as "{r}位"; several ranks as
    "{min}-{max}位"; the class is "top" when the minimum is at most 3,
    "high" when it is above 3 and at most 10, and empty above 10. *)
Theorem rank_badge_by_ranks (idx : nat) (title_info : TitleInfo) (title : str) :
  ti_title title_info = Some title →
  let ranks := default [] (ti_ranks title_info) in
  ∃ cls display,
    news_item_html idx title_info =
      Ok (news_item_row (default false (ti_is_new title_info)) cls idx
            (default (u "未知平台") (ti_source_name title_info)) display
            (default [] (ti_time_display title_info))
            (default [] (ti_url title_info)) title)
    ∧ (ranks = [] → cls = [] ∧ display = [])
    ∧ (∀ r, ranks = [r] → display = dec r ++ u "位")
    ∧ (∀ m M, (1 < length ranks)%nat → is_min m ranks → is_max M ranks →
         display = dec m ++ u "-" ++ dec M ++ u "位")
    ∧ (∀ m, is_min m ranks →
         (m ≤ 3 → cls = u "top")
         ∧ (3 < m ≤ 10 → cls = u "high")
         ∧ (10 < m → cls = [])).
Proof.
  intros Ht ranks. exists (rank_class ranks), (rank_display ranks).
  split; [unfold news_item_html; rewrite Ht; reflexivity|].
  destruct ranks as [|r rs]; [|destruct rs as [|r' rs]].
  - split; [done|]. split; [done|]. split; [simpl; lia|].
    intros m [H _]. by apply elem_of_nil in H.
  - split; [done|]. split; [by intros ? [= <-]|]. split; [simpl; lia|].
    intros m Hm. rewrite (is_min_unique _ _ _ Hm (py_min_spec r [])).
    unfold rank_class, py_min. simpl.
    destruct (Z.leb_spec r 3), (Z.leb_spec r 10); repeat split; intros;
      first [lia | reflexivity].
  - split; [done|]. split; [done|]. split.
    + intros m M _ Hm HM.
      rewrite (is_min_unique _ _ _ Hm (py_min_spec r (r' :: rs))).
      rewrite (is_max_unique _ _ _ HM (py_max_spec r (r' :: rs))).
      reflexivity.
    + intros m Hm. rewrite (is_min_unique _ _ _ Hm (py_min_spec r (r' :: rs))).
      unfold rank_class.
      destruct (Z.leb_spec (py_min r (r' :: rs)) 3),
        (Z.leb_spec (py_min r (r' :: rs)) 10); repeat split; intros;
        first [lia | reflexivity].
Qed.

Lemma rank_badge_by_ranks_witness :
  ∃ cls display,
    news_item_html 1 title_two_ranks =
      Ok (news_item_row false cls 1 (u "未知平台") display [] [] (u "t1"))
    ∧ cls = u "top" ∧ display = u "2-5位".
Proof.
  destruct (rank_badge_by_ranks 1 title_two_ranks (u "t1") eq_refl)
    as (cls & display & Hrow & _ & _ & Hmany & Hcls).
  exists cls, display. split; [exact Hrow|]. split.
  - apply (Hcls 2); [|lia].
    split; [by left | repeat constructor; lia].
  - apply (Hmany 2 5); [simpl; lia | |].
    + split; [by left | repeat constructor; lia].
    + split; [right; by left | repeat constructor; lia].
Defined.

(** ** The error section *)

Lemma render_html_report_error_section (template : Slots → result str)
    update_time generation_time save_script report_data total_titles
    hot_news_count word_count failed_ids new_titles id_to_name html :
  render_html_report (Ok template) update_time generation_time save_script
    report_data total_titles hot_news_count word_count failed_ids new_titles
    id_to_name = Ok html →
  ∃ slots, template slots = Ok html
    ∧ error_section slots = build_error_section failed_ids.
Proof.
  unfold render_html_report. simpl.
  destruct (build_word_groups _ _) as [groups|]; [|discriminate]. simpl.
  destruct (build_new_news_section _ _) as [news|]; [|discriminate]. simpl.
  intros H. eexists. split; [exact H | reflexivity].
Qed.

(** C6: without failed ids, [None] or the empty list, the error section
    is the empty string; otherwise it is the titled list with one item
    per failed id, in input order, each id inserted as it is. *)
Theorem error_section_by_failed_ids :
  build_error_section None = []
  ∧ build_error_section (Some []) = []
  ∧ ∀ ids : list str, ids ≠ [] →
      build_error_section (Some ids) =
        error_section_open
        ++ concat ((λ failed_id,
                      u "<li class='error-item'>" ++ failed_id ++ u "</li>")
                   <$> ids)
        ++ error_section_close.
Proof.
  split; [done|]. split; [done|]. intros ids Hids.
  destruct ids as [|failed_id ids]; [done|].
  unfold build_error_section. rewrite foldl_append.
  by rewrite <- app_assoc.
Qed.

Lemma error_section_by_failed_ids_witness :
  build_error_section (Some [u "a"; u "b"]) =
    error_section_open
    ++ (u "<li class='error-item'>a</li>" ++ u "<li class='error-item'>b</li>")
    ++ error_section_close.
Proof.
  destruct error_section_by_failed_ids as (_ & _ & H).
  rewrite (H [u "a"; u "b"]); [reflexivity | discriminate].
Defined.

(** ** The rank of a new item without ranks *)

(** C10: in the sequence shape a record whose ranks are missing or empty
    is rendered with rank 0 and the class "top"; every item whose rank
    is at most 10 has a non-empty class, "top" up to 3 and "high" above;
    a hot-group item without ranks has no rank class. *)
Theorem new_item_rank_default :
  (∀ idx title_info,
     ti_ranks title_info = None ∨ ti_ranks title_info = Some [] →
     list_item_html idx title_info =
       Ok (list_item_row (u "top") idx 0 (default [] (ti_url title_info))
             (default [] (ti_title title_info))))
  ∧ (∀ idx title_info,
       first_rank title_info ≤ 10 →
       ∃ cls,
         list_item_html idx title_info =
           Ok (list_item_row cls idx (first_rank title_info)
                 (default [] (ti_url title_info))
                 (default [] (ti_title title_info)))
         ∧ cls ≠ []
         ∧ (first_rank title_info ≤ 3 → cls = u "top")
         ∧ (3 < first_rank title_info → cls = u "high"))
  ∧ (∀ idx title_info title,
       ti_title title_info = Some title →
       ti_ranks title_info = None ∨ ti_ranks title_info = Some [] →
       news_item_html idx title_info =
         Ok (news_item_row (default false (ti_is_new title_info)) [] idx
               (default (u "未知平台") (ti_source_name title_info)) []
               (default [] (ti_time_display title_info))
               (default [] (ti_url title_info)) title)).
Proof.
  split; [|split].
  - intros idx ti H. unfold list_item_html, first_rank.
    by destruct H as [-> | ->].
  - intros idx ti H. exists (new_rank_class (first_rank ti)).
    split; [reflexivity|]. unfold new_rank_class.
    destruct (Z.leb_spec (first_rank ti) 3), (Z.leb_spec (first_rank ti) 10);
      repeat split; intros; first [lia | reflexivity | discriminate].
  - intros idx ti title Ht H. unfold news_item_html. rewrite Ht.
    by destruct H as [-> | ->].
Qed.

Lemma new_item_rank_default_witness :
  list_item_html 1 title_no_ranks =
    Ok (list_item_row (u "top") 1 0 (u "u") (u "t1"))
  ∧ news_item_html 1 title_no_ranks =
      Ok (news_item_row false [] 1 (u "未知平台") [] [] (u "u") (u "t1")).
Proof.
  destruct new_item_rank_default as (Hnew & _ & Hhot). split.
  - apply (Hnew 1%nat title_no_ranks). by left.
  - apply (Hhot 1%nat title_no_ranks (u "t1")); [reflexivity | by left].
Defined.

(** ** Runs of characters *)

Lemma span_app p s : (span p s).1 ++ (span p s).2 = s.
Proof.
  induction s as [|c s IH]; [done|]. simpl.
  destruct (p c); [|done]. destruct (span p s) as [a b]. simpl in *. by f_equal.
Qed.

Lemma span_all p s : all_in p (span p s).1.
Proof.
  induction s as [|c s IH]; [constructor|]. simpl.
  destruct (p c) eqn:Hc; [|constructor].
  destruct (span p s) as [a b]. by constructor.
Qed.

Lemma span_stops p s : stops p (span p s).2.
Proof.
  induction s as [|c s IH]; [done|]. simpl.
  destruct (p c) eqn:Hc; [|done]. by destruct (span p s) as [a b].
Qed.

Lemma span_eq p a b : all_in p a → stops p b → span p (a ++ b) = (a, b).
Proof.
  intros Ha Hb. induction Ha as [|c a Hc _ IH]; simpl.
  - destruct b as [|c b]; [done|]. simpl in *. by rewrite Hb.
  - by rewrite Hc, IH.
Qed.

Lemma span_stops_nil p s : stops p s → span p s = ([], s).
Proof. intros H. by apply (span_eq p [] s); [constructor|]. Qed.

Lemma token_char_nonspace c : token_char c = true → isspace c = false.
Proof. unfold token_char. destruct (is_hash c), (isspace c); done. Qed.

Lemma is_hash_eq c : is_hash c = true → c = hash.
Proof. unfold is_hash. by intros ?%N.eqb_eq. Qed.

Lemma token_char_hash : token_char hash = false.
Proof. reflexivity. Qed.

(** ** Splitting on whitespace *)

Lemma span_rest_length p s : (length (span p s).2 ≤ length s)%nat.
Proof.
  rewrite <- (span_app p s) at 2. rewrite length_app. lia.
Qed.

(** The fuel [split] supplies is enough: more fuel gives the same parts. *)
Lemma split_fuel_enough n m s :
  (length s < n)%nat → (length s < m)%nat → split_fuel n s = split_fuel m s.
Proof.
  revert m s. induction n as [|n IH]; intros m s Hn Hm; [lia|].
  destruct m as [|m]; [lia|]. cbn [split_fuel]. unfold lstrip.
  pose proof (span_rest_length isspace s) as Hlen.
  pose proof (span_stops isspace s) as Hstop.
  destruct (span isspace s).2 as [|c t]; [done|].
  cbn [stops] in Hstop.
  pose proof (span_rest_length (λ c, negb (isspace c)) t) as Hrest.
  cbn [span]. rewrite Hstop. cbn [negb].
  destruct (span (λ c, negb (isspace c)) t) as [w r]. cbn [snd] in Hrest.
  f_equal. cbn [length] in Hlen. apply IH; lia.
Qed.

Lemma split_fuel_split n s : (length s < n)%nat → split_fuel n s = split s.
Proof. intros H. apply split_fuel_enough; [done | lia]. Qed.

(** ** The pattern of the category tag *)

Lemma backtrack_unfold f lo n :
  Re.backtrack f lo n =
    if (n <? lo)%nat then None
    else match f n with
         | Some r => Some r
         | None =>
             match n with
             | O => None
             | S n' => Re.backtrack f lo n'
             end
         end.
Proof. by destruct n. Qed.

Lemma backtrack_first f lo n r :
  (lo ≤ n)%nat → f n = Some r → Re.backtrack f lo n = Some r.
Proof.
  intros Hlo Hf. rewrite backtrack_unfold, Hf.
  by destruct (Nat.ltb_spec n lo); [lia|].
Qed.

Lemma backtrack_below f lo n : (n < lo)%nat → Re.backtrack f lo n = None.
Proof.
  intros H. rewrite backtrack_unfold.
  by destruct (Nat.ltb_spec n lo); [|lia].
Qed.

Lemma backtrack_none f lo n :
  (∀ k, (k ≤ n)%nat → f k = None) → Re.backtrack f lo n = None.
Proof.
  induction n as [|n IH]; intros H; rewrite backtrack_unfold.
  - rewrite (H 0%nat) by lia. by destruct (_ <? _)%nat.
  - rewrite (H (S n)) by lia. rewrite IH by (intros; apply H; lia).
    by destruct (_ <? _)%nat.
Qed.

Lemma backtrack_skip f lo m n :
  (m ≤ n)%nat → (∀ k, (m < k ≤ n)%nat → f k = None) →
  Re.backtrack f lo n = Re.backtrack f lo m.
Proof.
  induction n as [|n IH]; intros Hmn H.
  - by replace m with 0%nat by lia.
  - destruct (decide (m = S n)) as [->|Hne]; [done|].
    rewrite <- IH by (first [lia | intros; apply H; lia]).
    rewrite (backtrack_unfold f lo (S n)). rewrite (H (S n)) by lia.
    destruct (Nat.ltb_spec (S n) lo); [|done].
    symmetry. apply backtrack_below. lia.
Qed.

Lemma match_here_plus_last p s :
  Re.match_here [Re.Plus p] s =
    match (span p s).1 with
    | [] => None
    | tok => Some (length tok)
    end.
Proof.
  simpl. destruct (span p s).1 as [|c tok]; [done|].
  apply backtrack_first; [simpl; lia|]. simpl. f_equal. lia.
Qed.

Lemma match_here_category c s :
  Re.match_here category_pattern (c :: s) =
    if is_hash c then
      S <$> Re.backtrack
              (λ k, Nat.add k <$> Re.match_here [Re.Plus token_char] (drop k s))
              0 (length (span isspace s).1)
    else None.
Proof. reflexivity. Qed.

Lemma re_match_category word :
  Re.re_match category_pattern word = leading_tag word.
Proof.
  unfold Re.re_match, leading_tag.
  destruct word as [|c s]; [done|].
  rewrite match_here_category. destruct (is_hash c); [|done].
  pose proof (span_app isspace s) as Hs.
  pose proof (span_all isspace s) as Hws.
  pose proof (span_stops isspace s) as Hr.
  destruct (span isspace s) as [ws r]. cbn [fst snd] in *. subst s.
  set (F := λ k : nat, Nat.add k <$> _).
  assert (HF : ∀ k, (k < length ws)%nat → F k = None).
  { intros k Hk. unfold F. rewrite match_here_plus_last.
    rewrite drop_app_le by lia.
    destruct (drop k ws) as [|w ws'] eqn:Hd.
    - apply (f_equal length) in Hd. rewrite length_drop in Hd. simpl in Hd. lia.
    - assert (Hw : isspace w = true).
      { assert (Hi : ws !! (k + 0)%nat = Some w)
          by (by rewrite <- lookup_drop, Hd).
        unfold all_in in Hws. rewrite Forall_lookup in Hws. by eapply Hws. }
      simpl. unfold token_char at 1. rewrite Hw.
      by rewrite andb_false_r. }
  assert (Hlast : F (length ws) =
                  match (span token_char r).1 with
                  | [] => None
                  | tok => Some (length ws + length tok)%nat
                  end).
  { unfold F. rewrite match_here_plus_last. rewrite drop_app_length.
    by destruct (span token_char r).1. }
  destruct (span token_char r).1 as [|t tok] eqn:Htok.
  - rewrite backtrack_none; [done|].
    intros k Hk. destruct (decide (k = length ws)) as [->|]; [done|].
    apply HF. lia.
  - rewrite (backtrack_first F 0 (length ws) _ (Nat.le_0_l _) Hlast).
    simpl. do 2 f_equal.
    rewrite take_app_ge by lia.
    f_equal.
    pose proof (span_app token_char r) as Hr'. rewrite Htok in Hr'.
    rewrite <- Hr'.
    match goal with
    | |- take ?n _ = _ => replace n with (length (t :: tok)) by (simpl; lia)
    end.
    apply take_app_length.
Qed.

Lemma leading_tag_Some word g :
  leading_tag word = Some g →
  ∃ ws tok rest,
    word = hash :: ws ++ tok ++ rest ∧ g = hash :: ws ++ tok
    ∧ all_in isspace ws ∧ tok ≠ [] ∧ all_in token_char tok
    ∧ stops token_char rest.
Proof.
  unfold leading_tag. destruct word as [|c s]; [done|].
  destruct (is_hash c) eqn:Hc; [|done]. apply is_hash_eq in Hc as ->.
  pose proof (span_app isspace s) as Hs.
  pose proof (span_all isspace s) as Hws.
  destruct (span isspace s) as [ws r]. cbn [fst snd] in *.
  pose proof (span_app token_char r) as Hr.
  pose proof (span_all token_char r) as Htok.
  pose proof (span_stops token_char r) as Hrest.
  destruct (span token_char r) as [tok rest]. cbn [fst snd] in *.
  destruct tok as [|t tok]; [done|]. intros [= <-].
  exists ws, (t :: tok), rest. subst r s. done.
Qed.

Lemma leading_tag_of_tag ws tok rest :
  all_in isspace ws → tok ≠ [] → all_in token_char tok →
  stops token_char rest →
  leading_tag (hash :: ws ++ tok ++ rest) = Some (hash :: ws ++ tok).
Proof.
  intros Hws Hne Htok Hrest. unfold leading_tag.
  change (is_hash hash) with true. cbv iota.
  assert (Hstop : stops isspace (tok ++ rest)).
  { destruct tok as [|t tok]; [done|]. simpl.
    apply token_char_nonspace. by inversion Htok. }
  rewrite (span_eq isspace ws (tok ++ rest) Hws Hstop). cbn [fst snd].
  rewrite (span_eq token_char tok rest Htok Hrest). cbn [fst].
  by destruct tok.
Qed.

(** ** The display name of a hot group *)

Lemma tagged_leading_tag word : tagged word → is_Some (leading_tag word).
Proof.
  intros (ws & c & rest & -> & Hws & Hc). unfold leading_tag.
  change (is_hash hash) with true. cbv iota.
  rewrite (span_eq isspace ws (c :: rest) Hws (token_char_nonspace c Hc)).
  cbn [fst snd span]. rewrite Hc.
  by destruct (span token_char rest).
Qed.

Lemma split_unfold s :
  split s =
    match lstrip s with
    | [] => []
    | t => (span nonspace t).1 :: split_fuel (length s) (span nonspace t).2
    end.
Proof.
  unfold split. cbn [split_fuel]. destruct (lstrip s) as [|c t]; [done|].
  change (λ c : N, negb (isspace c)) with nonspace.
  by destruct (span nonspace (c :: t)).
Qed.

Lemma split_blank s : all_in isspace s → split s = [].
Proof.
  intros Hs. rewrite split_unfold. unfold lstrip.
  rewrite <- (app_nil_r s) at 1. by rewrite (span_eq isspace s [] Hs I).
Qed.

Lemma split_first ws part rest :
  all_in isspace ws → part ≠ [] → all_in nonspace part → stops nonspace rest →
  ∃ parts, split (ws ++ part ++ rest) = part :: parts.
Proof.
  intros Hws Hne Hpart Hrest. rewrite split_unfold. unfold lstrip.
  assert (Hstop : stops isspace (part ++ rest)).
  { destruct part as [|c part]; [done|]. simpl.
    inversion Hpart as [|? ? Hc _]. unfold nonspace in Hc.
    by destruct (isspace c). }
  rewrite (span_eq isspace ws (part ++ rest) Hws Hstop). cbn [snd].
  pose proof (span_eq nonspace part rest Hpart Hrest) as E.
  destruct part as [|c part]; [done|].
  rewrite <- app_comm_cons in *. cbv iota. rewrite E. eauto.
Qed.

(** C3: the display name of a stat is the leading hash tag of [word],
    trimmed, when [word] starts with a hash, optional whitespace and a
    token; otherwise the first whitespace-delimited token of [word];
    and [word] itself when it has no token. *)
Theorem display_name_follows_spec (word : str) :
  display_spec word (display_name word).
Proof.
  unfold display_name. rewrite re_match_category.
  destruct (leading_tag word) as [g|] eqn:Hg.
  - apply leading_tag_Some in Hg as (ws & tok & rest & -> & -> & ? & ? & ? & ?).
    by constructor.
  - assert (Hnt : ¬ tagged word).
    { intros [g Hg']%tagged_leading_tag. congruence. }
    rewrite split_unfold. unfold lstrip.
    pose proof (span_app isspace word) as Hw.
    pose proof (span_all isspace word) as Hws.
    pose proof (span_stops isspace word) as Ht.
    destruct (span isspace word) as [ws t]. cbn [fst snd] in *. subst word.
    destruct t as [|c t].
    + rewrite app_nil_r in *. by apply display_word.
    + pose proof (span_app nonspace (c :: t)) as Hpr.
      pose proof (span_all nonspace (c :: t)) as Hpart.
      pose proof (span_stops nonspace (c :: t)) as Hrest.
      assert (Hne : (span nonspace (c :: t)).1 ≠ []).
      { simpl in Ht. simpl. unfold nonspace at 1. rewrite Ht. simpl.
        by destruct (span nonspace t). }
      destruct (span nonspace (c :: t)) as [part rest]. cbn [fst snd] in *.
      rewrite <- Hpr in *. by apply display_first.
Qed.

Lemma strip_tag ws tok :
  tok ≠ [] → all_in token_char tok → strip (hash :: ws ++ tok) = hash :: ws ++ tok.
Proof.
  intros Hne Htok. unfold strip, rstrip, lstrip.
  rewrite (span_stops_nil isspace (hash :: ws ++ tok)) by done. cbn [snd].
  destruct (exists_last Hne) as (tok' & c & ->).
  assert (Hc : isspace c = false).
  { apply token_char_nonspace. unfold all_in in Htok.
    rewrite Forall_app in Htok. destruct Htok as [_ Hc]. by inversion Hc. }
  replace (hash :: ws ++ tok' ++ [c]) with ((hash :: ws ++ tok') ++ [c])
    by (simpl; by rewrite <- app_assoc).
  rewrite reverse_snoc.
  rewrite (span_stops_nil isspace (c :: _)) by done. cbn [snd].
  by rewrite <- reverse_snoc, reverse_involutive.
Qed.

(** The specification determines the display name. *)
Lemma display_spec_unique word name :
  display_spec word name → name = display_name word.
Proof.
  unfold display_name. rewrite re_match_category.
  destruct 1 as [ws tok rest Hws Hne Htok Hrest
                | ws part rest Hnt Hws Hne Hpart Hrest | word Hnt Hw].
  - by rewrite leading_tag_of_tag.
  - destruct (leading_tag _) as [g|] eqn:Hg.
    + destruct Hnt.
      apply leading_tag_Some in Hg as (ws' & [|c tok] & rest' & Hw & _ & ? & ? & Hc & _);
        [done|].
      exists ws', c, (tok ++ rest'). split; [done|]. split; [done|].
      by inversion Hc.
    + by destruct (split_first ws part rest) as [parts ->].
  - destruct (leading_tag _) as [g|] eqn:Hg.
    + destruct Hnt.
      apply leading_tag_Some in Hg as (ws' & [|c tok] & rest' & Hw' & _ & ? & ? & Hc & _);
        [done|].
      exists ws', c, (tok ++ rest'). split; [done|]. split; [done|].
      by inversion Hc.
    + by rewrite split_blank.
Qed.

(** ** Truncation of long lists *)

Lemma dict_item_rows i (titles : list (str * TitleData)) :
  ∃ rows, rows_from dict_item_html i titles rows.
Proof.
  revert i. induction titles as [|[title data] titles IH]; intros i.
  - exists []. constructor.
  - destruct (IH (S i)) as [rows Hrows]. eexists (_ :: rows).
    by constructor.
Qed.

Lemma list_item_rows i (titles : list TitleInfo) :
  ∃ rows, rows_from list_item_html i titles rows.
Proof.
  revert i. induction titles as [|title_info titles IH]; intros i.
  - exists []. constructor.
  - destruct (IH (S i)) as [rows Hrows]. eexists (_ :: rows).
    by constructor.
Qed.

Lemma news_item_rows i (titles : list TitleInfo) :
  Forall (λ title_info, is_Some (ti_title title_info)) titles →
  ∃ rows, rows_from news_item_html i titles rows.
Proof.
  intros H. revert i. induction H as [|title_info titles [title Ht] _ IH];
    intros i.
  - exists []. constructor.
  - destruct (IH (S i)) as [rows Hrows]. eexists (_ :: rows).
    constructor; [|exact Hrows].
    unfold news_item_html. rewrite Ht. reflexivity.
Qed.

(** C5: of a stat with more than 20 titles the first 20 are rendered, in
    input order and numbered from 1, and the others do not affect the
    output, not even one without title; of a source with more than 10
    new items the first 10 are rendered, in either shape of
    [new_titles]. *)
Theorem only_first_titles_rendered :
  (∀ stat id_to_name first rest,
     st_titles stat = first ++ rest → length first = 20%nat →
     (Forall (λ title_info, is_Some (ti_title title_info)) first →
      ∃ rows,
        rows_from news_item_html 1 first rows
        ∧ length rows = 20%nat
        ∧ generate_word_group_html stat id_to_name =
            Ok (group_html (category (st_word stat))
                  (display_name (st_word stat))
                  (hot_level (st_count stat)).1
                  (hot_level (st_count stat)).2 (concat rows)))
     ∧ generate_word_group_html stat id_to_name =
         generate_word_group_html
           {| st_word := st_word stat; st_count := st_count stat;
              st_titles := first |} id_to_name
     ∧ ∀ html,
         generate_word_group_html stat id_to_name = Ok html →
         ∃ rows,
           rows_from news_item_html 1 first rows
           ∧ html = group_html (category (st_word stat))
                      (display_name (st_word stat))
                      (hot_level (st_count stat)).1
                      (hot_level (st_count stat)).2 (concat rows))
  ∧ (∀ names k source_id first rest,
       length first = 10%nat →
       ∃ rows,
         rows_from dict_item_html 1 first rows
         ∧ dict_source_html (Some names) k (source_id, first ++ rest) =
             Ok (dict_source_group (default source_id (names !! source_id))
                   (length (first ++ rest)) (concat rows)))
  ∧ (∀ k source_name first rest,
       length first = 10%nat →
       ∃ rows,
         rows_from list_item_html 1 first rows
         ∧ list_source_html k
             {| sd_source_name := source_name;
                sd_titles := Some (first ++ rest) |} =
             Ok (list_source_group (default (u "未知平台") source_name)
                   (length (first ++ rest)) (concat rows))).
Proof.
  split; [|split].
  - intros stat idn first rest Ht Hlen.
    assert (Htake : take 20 (st_titles stat) = first).
    { rewrite Ht, <- Hlen. apply take_app_length. }
    unfold generate_word_group_html. cbn [st_word st_count st_titles].
    rewrite Htake. rewrite (take_ge first) by lia. split; [|split; [done|]].
    { intros Hall. destruct (news_item_rows 1 first Hall) as [rows Hrows].
      exists rows. split; [done|].
      split; [by rewrite (rows_from_length _ _ _ _ Hrows)|].
      rewrite (accumulate_rows _ _ _ _ _ Hrows).
      destruct (hot_level (st_count stat)) as [cls txt]. reflexivity. }
    intros html H. destruct (hot_level (st_count stat)) as [cls txt].
    destruct (accumulate _ _ _ _) as [items|] eqn:Hitems; [|discriminate].
    apply accumulate_inv in Hitems as (rows & Hrows & ->).
    exists rows. split; [done|]. simpl in H. by injection H as <-.
  - intros names k sid first rest Hlen.
    destruct (dict_item_rows 1 first) as [rows Hrows]. exists rows.
    split; [done|].
    assert (Htake : take 10 (first ++ rest) = first)
      by (rewrite <- Hlen; apply take_app_length).
    destruct first as [|x first]; [simpl in Hlen; lia|].
    rewrite <- app_comm_cons in *. unfold dict_source_html.
    cbv beta iota zeta. rewrite Htake.
    rewrite (accumulate_rows _ _ _ _ _ Hrows). reflexivity.
  - intros k name first rest Hlen.
    destruct (list_item_rows 1 first) as [rows Hrows]. exists rows.
    split; [done|].
    assert (Htake : take 10 (first ++ rest) = first)
      by (rewrite <- Hlen; apply take_app_length).
    destruct first as [|x first]; [simpl in Hlen; lia|].
    rewrite <- app_comm_cons in *. unfold list_source_html.
    cbn [sd_titles sd_source_name default from_option]. unfold id.
    cbv beta iota zeta. rewrite Htake.
    rewrite (accumulate_rows _ _ _ _ _ Hrows). reflexivity.
Qed.

Lemma only_first_titles_rendered_witness :
  (∃ rows,
     rows_from news_item_html 1 (take 20 (st_titles stat_long)) rows
     ∧ length rows = 20%nat
     ∧ generate_word_group_html stat_long None =
         Ok (group_html (u "tech") (u "重要新闻") (u "hot") (u "🔥 21 条")
               (concat rows)))
  ∧ generate_word_group_html stat_long None =
      generate_word_group_html
        {| st_word := st_word stat_long; st_count := st_count stat_long;
           st_titles := replicate 20 title_two_ranks |} None
  ∧ (∃ rows,
       rows_from dict_item_html 1 (take 10 titles_long) rows
       ∧ dict_source_html (Some ∅) 0 (u "src1", titles_long) =
           Ok (dict_source_group (u "src1") 11 (concat rows)))
  ∧ (∃ rows,
       rows_from list_item_html 1 (replicate 10 title_no_ranks) rows
       ∧ list_source_html 0
           {| sd_source_name := None;
              sd_titles := Some (replicate 10 title_no_ranks ++ [title_untitled]) |} =
           Ok (list_source_group (u "未知平台") 11 (concat rows))).
Proof.
  destruct only_first_titles_rendered as (Hhot & Hdict & Hlist).
  destruct (Hhot stat_long None (replicate 20 title_two_ranks)
              [title_untitled] eq_refl eq_refl) as (Hrows & Hsame & _).
  split; [|split; [exact Hsame|split]].
  - refine (Hrows _). repeat constructor; by exists (u "t1").
  - exact (Hdict ∅ 0%nat (u "src1") (take 10 titles_long)
             (drop 10 titles_long) eq_refl).
  - exact (Hlist 0%nat None (replicate 10 title_no_ranks) [title_untitled]
             eq_refl).
Defined.

(** ** Missing optional fields *)

Lemma news_item_html_untitled idx title_info :
  ti_title title_info = None →
  news_item_html idx title_info = Raise (KeyError "title").
Proof. intros H. unfold news_item_html. by rewrite H. Qed.

(** C9: a title record that has a title is rendered whatever else it
    lacks: a missing source name is "未知平台", missing ranks are the
    empty sequence, a missing url or time is the empty string, a missing
    [is_new] is false; and a stat whose rendered records all have a
    title is rendered. *)
Theorem missing_fields_are_defaulted :
  (∀ idx title_info title,
     ti_title title_info = Some title →
     news_item_html idx title_info =
       Ok (news_item_row
             (match ti_is_new title_info with Some b => b | None => false end)
             (rank_class
                (match ti_ranks title_info with Some r => r | None => [] end))
             idx
             (match ti_source_name title_info with
              | Some s => s
              | None => u "未知平台"
              end)
             (rank_display
                (match ti_ranks title_info with Some r => r | None => [] end))
             (match ti_time_display title_info with Some t => t | None => [] end)
             (match ti_url title_info with Some l => l | None => [] end)
             title))
  ∧ (∀ stat id_to_name,
       Forall (λ title_info, is_Some (ti_title title_info))
         (take 20 (st_titles stat)) →
       ∃ html, generate_word_group_html stat id_to_name = Ok html).
Proof.
  split.
  - intros idx ti title Ht. unfold news_item_html. rewrite Ht.
    by destruct (ti_is_new ti), (ti_ranks ti), (ti_source_name ti),
      (ti_time_display ti), (ti_url ti).
  - intros stat idn Hall. unfold generate_word_group_html.
    destruct (hot_level (st_count stat)) as [cls txt].
    destruct (accumulate_total news_item_html [] 1 (take 20 (st_titles stat)))
      as [items ->]; [|simpl; eauto].
    intros k ti Hin. rewrite Forall_forall in Hall.
    destruct (Hall ti Hin) as [title Ht].
    unfold news_item_html. rewrite Ht. simpl. eauto.
Qed.

Lemma missing_fields_are_defaulted_witness :
  news_item_html 1 title_only =
    Ok (news_item_row false [] 1 (u "未知平台") [] [] [] (u "t1"))
  ∧ ∃ html,
      generate_word_group_html
        {| st_word := u "#财经"; st_count := 1; st_titles := [title_only] |}
        None = Ok html.
Proof.
  destruct missing_fields_are_defaulted as [Hitem Hstat]. split.
  - exact (Hitem 1%nat title_only (u "t1") eq_refl).
  - refine (Hstat _ None _). repeat constructor. by exists (u "t1").
Defined.

(** ** Counts shown in the new-items section *)

Lemma rows_from_Forall2 {A} (row : nat → A → result str) (P : A → str → Prop)
    i l rows :
  (∀ k x r, row k x = Ok r → P x r) →
  rows_from row i l rows → Forall2 P l rows.
Proof. intros HP. induction 1; constructor; eauto. Qed.

Lemma dict_source_html_group id_to_name k item group :
  dict_source_html id_to_name k item = Ok group →
  dict_group_of id_to_name item group.
Proof.
  unfold dict_source_html, dict_group_of. destruct item as [sid titles].
  cbn [fst snd]. destruct titles as [|t titles]; [by intros [= <-]|].
  destruct (id_to_name_get id_to_name sid) as [name|]; [|discriminate].
  cbn [mbind result_bind].
  destruct (accumulate _ _ _ _) as [items|] eqn:Hitems; [|discriminate].
  apply accumulate_inv in Hitems as (rows & Hrows & ->).
  intros H. ok_inv H. by exists name, rows.
Qed.

Lemma list_source_html_group k source_data group :
  list_source_html k source_data = Ok group →
  list_group_of source_data group.
Proof.
  unfold list_source_html, list_group_of.
  destruct (default [] (sd_titles source_data)) as [|t titles];
    [by intros [= <-]|].
  destruct (accumulate _ _ _ _) as [items|] eqn:Hitems; [|discriminate].
  apply accumulate_inv in Hitems as (rows & Hrows & ->).
  intros H. ok_inv H. by exists rows.
Qed.

(** C7: the header of the new-items section shows the sum of the numbers
    of titles of all sources, and the header of each source shows the
    number of all its titles, while only its first ten are rendered. *)
Theorem counts_are_untruncated :
  (∀ sources id_to_name html,
     sources ≠ [] →
     generate_new_news_html (NewDict sources) id_to_name = Ok html →
     ∃ groups,
       Forall2 (dict_group_of id_to_name) sources groups
       ∧ html = section_html
                  (Z.of_nat (sum_list_with (λ item, length item.2) sources))
                  (concat groups))
  ∧ (∀ sources id_to_name html,
       sources ≠ [] →
       generate_new_news_html (NewList sources) id_to_name = Ok html →
       ∃ groups,
         Forall2 list_group_of sources groups
         ∧ html = section_html
                    (Z.of_nat
                       (sum_list_with
                          (λ source, length (default [] (sd_titles source)))
                          sources))
                    (concat groups)).
Proof.
  split.
  - intros sources idn html Hne H. destruct sources as [|s sources]; [done|].
    unfold generate_new_news_html in H.
    destruct (accumulate _ _ _ _) as [items|] eqn:Hitems; [|discriminate].
    apply accumulate_inv in Hitems as (groups & Hgroups & ->).
    ok_inv H. exists groups. split; [|done].
    eapply rows_from_Forall2; [|done].
    intros k x r. apply dict_source_html_group.
  - intros sources idn html Hne H. destruct sources as [|s sources]; [done|].
    unfold generate_new_news_html in H.
    destruct (accumulate _ _ _ _) as [items|] eqn:Hitems; [|discriminate].
    apply accumulate_inv in Hitems as (groups & Hgroups & ->).
    ok_inv H. exists groups. split; [|done].
    eapply rows_from_Forall2; [|done].
    intros k x r. apply list_source_html_group.
Qed.

Lemma counts_are_untruncated_witness :
  ∃ html groups,
    generate_new_news_html new_titles_long (Some ∅) = Ok html
    ∧ Forall2 (dict_group_of (Some ∅))
        [(u "src1", titles_long); (u "src2", [])] groups
    ∧ html = section_html 11 (concat groups).
Proof.
  destruct counts_are_untruncated as [Hdict _].
  assert (Hgen : ∃ html,
             generate_new_news_html new_titles_long (Some ∅) = Ok html)
    by (eexists; reflexivity).
  destruct Hgen as [html Hgen].
  destruct (Hdict [(u "src1", titles_long); (u "src2", [])] (Some ∅) html
              ltac:(discriminate) Hgen) as (groups & Hgroups & Hhtml).
  exists html, groups. split; [exact Hgen|]. split; [exact Hgroups|].
  exact Hhtml.
Defined.

(** ** The name of a source *)

(** C8: in the mapping shape the header of a source shows the name that
    [id_to_name] gives for its id, and the id itself when [id_to_name]
    has no entry for it; the sequence shape does not read [id_to_name]. *)
Theorem source_name_lookup :
  (∀ (names : gmap str str) k source_id titles source_name,
     titles ≠ [] → names !! source_id = Some source_name →
     ∃ items,
       dict_source_html (Some names) k (source_id, titles) =
         Ok (dict_source_group source_name (length titles) items))
  ∧ (∀ (names : gmap str str) k source_id titles,
       titles ≠ [] → names !! source_id = None →
       ∃ items,
         dict_source_html (Some names) k (source_id, titles) =
           Ok (dict_source_group source_id (length titles) items))
  ∧ (∀ sources id_to_name id_to_name',
       generate_new_news_html (NewList sources) id_to_name =
         generate_new_news_html (NewList sources) id_to_name').
Proof.
  split; [|split].
  - intros names k sid titles name Hne Hname.
    destruct (dict_item_rows 1 (take 10 titles)) as [rows Hrows].
    exists (concat rows). unfold dict_source_html.
    destruct titles as [|t titles]; [done|].
    cbn [id_to_name_get]. rewrite Hname. cbn [default from_option mbind result_bind].
    by rewrite (accumulate_rows _ _ _ _ _ Hrows).
  - intros names k sid titles Hne Hname.
    destruct (dict_item_rows 1 (take 10 titles)) as [rows Hrows].
    exists (concat rows). unfold dict_source_html.
    destruct titles as [|t titles]; [done|].
    cbn [id_to_name_get]. rewrite Hname. cbn [default from_option mbind result_bind].
    by rewrite (accumulate_rows _ _ _ _ _ Hrows).
  - reflexivity.
Qed.

Lemma source_name_lookup_witness :
  (∃ items,
     dict_source_html (Some names_sample) 0 (u "src1", titles_long) =
       Ok (dict_source_group (u "微博") 11 items))
  ∧ (∃ items,
       dict_source_html (Some names_sample) 0 (u "src2", titles_long) =
         Ok (dict_source_group (u "src2") 11 items)).
Proof.
  destruct source_name_lookup as (Hsome & Hnone & _). split.
  - exact (Hsome names_sample 0%nat (u "src1") titles_long (u "微博")
             ltac:(discriminate) ltac:(vm_compute; reflexivity)).
  - exact (Hnone names_sample 0%nat (u "src2") titles_long
             ltac:(discriminate) ltac:(vm_compute; reflexivity)).
Defined.

(** ** The two shapes of [new_titles] *)

(** The f-strings of the two arms are the same text. *)
Lemma item_rows_agree : dict_item_row = list_item_row.
Proof. unfold dict_item_row, list_item_row. reflexivity. Qed.

Lemma source_groups_agree : dict_source_group = list_source_group.
Proof. unfold dict_source_group, list_source_group. reflexivity. Qed.

Lemma item_html_equiv idx item title_info :
  title_equiv item title_info →
  dict_item_html idx item = list_item_html idx title_info.
Proof.
  destruct item as [title data].
  intros (rank & url & Hdata & Htitle & Hurl & Hranks).
  cbn [fst snd] in *. subst data.
  unfold dict_item_html, list_item_html, first_rank.
  rewrite Htitle, Hurl, Hranks, item_rows_agree.
  cbn [td_rank td_url default from_option]. reflexivity.
Qed.

Lemma items_html_equiv acc idx items titles :
  Forall2 title_equiv items titles →
  accumulate dict_item_html acc idx items =
    accumulate list_item_html acc idx titles.
Proof.
  intros H. revert acc idx.
  induction H as [|item title_info items titles Hx _ IH]; intros acc idx.
  - reflexivity.
  - cbn [accumulate]. rewrite (item_html_equiv idx item title_info Hx).
    destruct (list_item_html idx title_info) as [r|]; [|done].
    cbn [mbind result_bind]. apply IH.
Qed.

Lemma source_html_equiv names k k' item source_data :
  source_equiv names item source_data →
  dict_source_html (Some names) k item = list_source_html k' source_data.
Proof.
  destruct item as [sid items]. intros [Hname (titles & Htitles & Hall)].
  cbn [fst snd] in *. unfold dict_source_html, list_source_html.
  rewrite Hname, Htitles. cbn [default from_option id_to_name_get]. unfold id.
  pose proof (Forall2_length _ _ _ Hall) as Hlen.
  pose proof (Forall2_take _ _ _ 10 Hall) as Htake.
  destruct Hall as [|item title_info items titles Hx Hall]; [done|].
  cbn [mbind result_bind].
  rewrite (items_html_equiv [] 1 _ _ Htake).
  destruct (accumulate list_item_html _ _ _) as [rows|]; [|done].
  cbn [mbind result_bind]. by rewrite Hlen, source_groups_agree.
Qed.

Lemma sources_html_equiv names acc k k' mapping sequence :
  shape_equiv names mapping sequence →
  accumulate (dict_source_html (Some names)) acc k mapping =
    accumulate list_source_html acc k' sequence.
Proof.
  intros H. revert acc k k'.
  induction H as [|item source_data mapping sequence Hx _ IH]; intros acc k k'.
  - reflexivity.
  - cbn [accumulate]. rewrite (source_html_equiv names k k' _ _ Hx).
    destruct (list_source_html k' source_data) as [r|]; [|done].
    cbn [mbind result_bind]. apply IH.
Qed.

Lemma total_count_equiv names mapping sequence :
  shape_equiv names mapping sequence →
  total_count (NewDict mapping) = total_count (NewList sequence).
Proof.
  intros H. unfold total_count. f_equal.
  induction H as [|item source_data mapping sequence Hx _ IH]; [done|].
  cbn [sum_list_with]. rewrite IH. f_equal.
  destruct Hx as [_ (titles & -> & Hall)]. by apply Forall2_length in Hall.
Qed.

(** C1: a mapping and a sequence of the same shape give the same total
    count, the same group for every source and the same section. *)
Theorem shapes_render_alike (names : gmap str str)
    (mapping : list (str * list (str * TitleData)))
    (sequence : list SourceData) (id_to_name : option (gmap str str)) :
  shape_equiv names mapping sequence →
  total_count (NewDict mapping) = total_count (NewList sequence)
  ∧ Forall2 (λ item source_data,
               ∀ k k', dict_source_html (Some names) k item =
                         list_source_html k' source_data)
      mapping sequence
  ∧ generate_new_news_html (NewDict mapping) (Some names) =
      generate_new_news_html (NewList sequence) id_to_name.
Proof.
  intros H. split; [by eapply total_count_equiv|]. split.
  - eapply Forall2_impl; [exact H|]. intros item source_data Hx k k'.
    by apply source_html_equiv.
  - unfold generate_new_news_html.
    rewrite (total_count_equiv names mapping sequence H).
    destruct H as [|item source_data mapping sequence Hx H]; [done|].
    rewrite (sources_html_equiv names [] 0 0 (item :: mapping)
               (source_data :: sequence)) by (by constructor).
    reflexivity.
Qed.

Lemma shape_equiv_sample : shape_equiv ∅ mapping_sample sequence_sample.
Proof.
  repeat constructor. eexists. split; [reflexivity|].
  repeat constructor. by exists 1, (u "u").
Qed.

Lemma shapes_render_alike_witness :
  total_count (NewDict mapping_sample) = 1
  ∧ total_count (NewList sequence_sample) = 1
  ∧ generate_new_news_html (NewDict mapping_sample) (Some ∅) =
      generate_new_news_html (NewList sequence_sample) None.
Proof.
  destruct (shapes_render_alike ∅ mapping_sample sequence_sample None
              shape_equiv_sample) as (Hcount & _ & Hhtml).
  split; [reflexivity|]. split; [by rewrite <- Hcount|]. exact Hhtml.
Defined.

(** The sequence built from a mapping whose entries have a rank and a
    url has the shape of the mapping. *)
Lemma shape_equiv_of_mapping names mapping :
  Forall (λ item : str * list (str * TitleData),
            Forall (λ title : str * TitleData,
                      is_Some (td_rank title.2) ∧ is_Some (td_url title.2))
              item.2)
    mapping →
  shape_equiv names mapping (source_of_item names <$> mapping).
Proof.
  intros H. unfold shape_equiv. apply Forall2_fmap_r, Forall_Forall2_diag.
  eapply Forall_impl; [exact H|]. intros [sid items] Hitems.
  split; [done|]. eexists. split; [done|]. cbn [snd] in *.
  apply Forall2_fmap_r, Forall_Forall2_diag.
  eapply Forall_impl; [exact Hitems|].
  intros [title [rank url]] [[r Hr] [l Hl]]. simpl in *. subst.
  by exists r, l.
Qed.

(** ** Further facts about the report *)

(** Without [id_to_name] the mapping arm fails at the first source that
    has titles: [None] has no [get]. *)
Lemma dict_source_html_without_names k source_id title titles :
  dict_source_html None k (source_id, title :: titles) =
    Raise (AttributeError "get").
Proof. reflexivity. Qed.

(** A missing template fails the report before anything is rendered. *)
Lemma render_html_report_no_template update_time generation_time save_script
    report_data total_titles hot_news_count word_count failed_ids new_titles
    id_to_name :
  render_html_report (Raise FileNotFoundError) update_time generation_time
    save_script report_data total_titles hot_news_count word_count failed_ids
    new_titles id_to_name = Raise FileNotFoundError.
Proof. reflexivity. Qed.

(** A report without stats has no hot groups. *)
Lemma build_word_groups_empty id_to_name :
  build_word_groups {| rd_stats := Some [] |} id_to_name = Ok []
  ∧ build_word_groups {| rd_stats := None |} id_to_name = Ok [].
Proof. split; reflexivity. Qed.

(** A stat whose count is not positive is skipped. *)
Lemma build_word_groups_skips stat stats id_to_name :
  st_count stat ≤ 0 →
  build_word_groups {| rd_stats := Some (stat :: stats) |} id_to_name =
    build_word_groups {| rd_stats := Some stats |} id_to_name.
Proof.
  intros H. unfold build_word_groups. cbn [rd_stats default from_option id].
  cbn [accumulate]. destruct (Z.ltb_spec 0 (st_count stat)); [lia|].
  cbn [mbind result_bind app]. by apply accumulate_index.
Qed.

(** New titles without any title give no new-items section. *)
Lemma build_new_news_section_empty id_to_name :
  build_new_news_section None id_to_name = Ok []
  ∧ build_new_news_section (Some (NewDict [(u "src1", [])])) id_to_name = Ok []
  ∧ build_new_news_section
      (Some (NewList [{| sd_source_name := None; sd_titles := None |}]))
      id_to_name = Ok [].
Proof. repeat split; reflexivity. Qed.

(** * Further properties *)

(** ** The category of a hot group *)

Lemma starts_with_spec x s : starts_with x s = true ↔ ∃ post, s = x ++ post.
Proof.
  revert s. induction x as [|a x IH]; intros s; simpl.
  - split; [intros _; by exists s | done].
  - destruct s as [|b s]; [split; [done | by intros [post ?]]|].
    rewrite andb_true_iff, N.eqb_eq, IH. split.
    + intros [-> [post ->]]. by exists post.
    + intros [post [= -> ->]]. split; [done | by exists post].
Qed.

Lemma contains_spec x s : contains x s = true ↔ occurs x s.
Proof.
  unfold occurs. induction s as [|b s IH]; cbn [contains].
  - rewrite orb_false_r, starts_with_spec. split.
    + intros [post ->]. by exists [], post.
    + intros (pre & post & H). symmetry in H.
      apply app_eq_nil in H as [-> H]. apply app_eq_nil in H as [-> ->].
      by exists [].
  - rewrite orb_true_iff, starts_with_spec, IH. split.
    + intros [[post ->] | (pre & post & ->)].
      * by exists [], post.
      * by exists (b :: pre), post.
    + intros (pre & post & H). destruct pre as [|c pre].
      * left. by exists post.
      * right. injection H as -> ->. by exists pre, post.
Qed.

Lemma any_in_spec keywords word :
  any_in keywords word = true ↔ has_keyword keywords word.
Proof.
  unfold any_in, has_keyword. induction keywords as [|k ks IH]; cbn [existsb].
  - split; [done | by intros (x & []%elem_of_nil & _)].
  - rewrite orb_true_iff, contains_spec, IH. split.
    + intros [H | (x & Hx & H)]; [exists k | exists x]; split; try done.
      * by left.
      * by right.
    + intros (x & [-> | Hx]%elem_of_cons & H); [by left | right; by exists x].
Qed.

Lemma category_unfold word :
  category word =
    if any_in music_keywords word then u "music"
    else if any_in entertainment_keywords word then u "entertainment"
    else if any_in social_keywords word then u "social"
    else u "tech".
Proof.
  unfold category, music_keywords, entertainment_keywords, social_keywords.
  reflexivity.
Qed.

(** X1: the category of a hot group is "music" when the word contains a
    music keyword; otherwise "entertainment" when it contains an
    entertainment keyword; otherwise "social" when it contains a social
    keyword; otherwise "tech".  The earlier list wins. *)
Theorem category_by_keywords (word : str) :
  (has_keyword music_keywords word → category word = u "music")
  ∧ (¬ has_keyword music_keywords word →
     has_keyword entertainment_keywords word →
     category word = u "entertainment")
  ∧ (¬ has_keyword music_keywords word →
     ¬ has_keyword entertainment_keywords word →
     has_keyword social_keywords word →
     category word = u "social")
  ∧ (¬ has_keyword music_keywords word →
     ¬ has_keyword entertainment_keywords word →
     ¬ has_keyword social_keywords word →
     category word = u "tech").
Proof.
  rewrite category_unfold. rewrite <- !any_in_spec.
  destruct (any_in music_keywords word), (any_in entertainment_keywords word),
    (any_in social_keywords word); repeat split; intros; congruence.
Qed.

Lemma category_by_keywords_witness :
  category (u "周杰伦演唱会上映电影") = u "music"
  ∧ category (u "996与房价") = u "social".
Proof.
  split.
  - refine (proj1 (category_by_keywords _) _).
    exists (u "演唱会"). split; [right; by left|].
    exists (u "周杰伦"), (u "上映电影"). vm_compute. reflexivity.
  - refine (proj1 (proj2 (proj2 (category_by_keywords _))) _ _ _).
    + intros H%any_in_spec. vm_compute in H. discriminate.
    + intros H%any_in_spec. vm_compute in H. discriminate.
    + exists (u "996"). split; [right; by left|].
      exists [], (u "与房价"). vm_compute. reflexivity.
Defined.

(** ** The hot groups of the report *)

Lemma news_item_html_titled idx title_info title :
  ti_title title_info = Some title → ∃ row, news_item_html idx title_info = Ok row.
Proof. intros H. unfold news_item_html. rewrite H. cbn [subscript mbind result_bind]. eauto. Qed.

Lemma accumulate_news_items_raise acc idx titles e :
  accumulate news_item_html acc idx titles = Raise e
  ↔ e = KeyError "title" ∧ Exists untitled titles.
Proof.
  revert acc idx. induction titles as [|title_info titles IH]; intros acc idx.
  - cbn [accumulate]. split; [done | by intros [_ H%Exists_nil]].
  - cbn [accumulate]. rewrite Exists_cons. unfold untitled at 1.
    destruct (ti_title title_info) as [title|] eqn:Ht.
    + destruct (news_item_html_titled idx title_info title Ht) as [row ->].
      cbn [mbind result_bind]. rewrite IH. split.
      * intros [-> H]. split; [done | by right].
      * intros [-> [H|H]]; [discriminate | done].
    + rewrite (news_item_html_untitled idx title_info Ht).
      cbn [mbind result_bind]. split.
      * intros [= <-]. split; [done | by left].
      * by intros [-> _].
Qed.

(** Once the three keys are read, the function fails exactly when one of
    the first 20 title records has no title. *)
Lemma generate_word_group_html_raise_iff (stat : Stat) id_to_name (e : exn) :
  generate_word_group_html stat id_to_name = Raise e
  ↔ e = KeyError "title" ∧ Exists untitled (take 20 (st_titles stat)).
Proof.
  rewrite <- (accumulate_news_items_raise [] 1).
  unfold generate_word_group_html.
  destruct (hot_level (st_count stat)) as [hot_class hot_text].
  destruct (accumulate news_item_html [] 1 (take 20 (st_titles stat)));
    cbn [mbind result_bind]; split; intros H; first [discriminate | exact H].
Qed.

Lemma word_groups_rows id_to_name stats acc i j out :
  accumulate
    (λ _ stat,
       if 0 <? st_count stat then generate_word_group_html stat id_to_name
       else Ok []) acc i stats = Ok out
  ↔ ∃ blocks,
      rows_from (λ _ stat, generate_word_group_html stat id_to_name) j
        (positive_stats stats) blocks
      ∧ out = acc ++ concat blocks.
Proof.
  unfold positive_stats. revert acc i j.
  induction stats as [|stat stats IH]; intros acc i j.
  - cbn [accumulate]. split.
    + intros [= <-]. exists []. split; [constructor | by rewrite app_nil_r].
    + intros (blocks & Hrows & ->). inversion Hrows. by rewrite app_nil_r.
  - cbn [accumulate]. destruct (Z.ltb_spec 0 (st_count stat)) as [Hpos|Hpos].
    + rewrite filter_cons_True by done.
      destruct (generate_word_group_html stat id_to_name) as [block|e] eqn:Hb;
        cbn [mbind result_bind].
      * rewrite (IH _ (S i) (S j)). split.
        -- intros (blocks & Hrows & ->). exists (block :: blocks).
           split; [by constructor|]. cbn [concat]. by rewrite <- app_assoc.
        -- intros (blocks & Hrows & ->). inversion Hrows as [|? ? ? r rows Hr Hrows']; subst.
           rewrite Hb in Hr. injection Hr as <-. exists rows.
           split; [done|]. cbn [concat]. by rewrite <- app_assoc.
      * split; [done|]. intros (blocks & Hrows & _).
        inversion Hrows as [|? ? ? r rows Hr Hrows']; subst. congruence.
    + rewrite filter_cons_False by lia. cbn [mbind result_bind].
      rewrite app_nil_r. apply IH.
Qed.

(** X3: the hot groups of the report are the blocks of the stats whose
    count is positive, in the order of the stats; a stat whose count is
    zero or negative is neither rendered nor able to fail the report. *)
Theorem word_groups_of_positive_stats (report_data : ReportData) id_to_name
    (html : str) :
  build_word_groups report_data id_to_name = Ok html
  ↔ ∃ blocks,
      rows_from (λ _ stat, generate_word_group_html stat id_to_name) 0
        (positive_stats (default [] (rd_stats report_data))) blocks
      ∧ html = concat blocks.
Proof. unfold build_word_groups. by rewrite (word_groups_rows _ _ _ _ 0%nat). Qed.

Lemma word_groups_of_positive_stats_witness :
  ∃ block,
    generate_word_group_html stat_hot None = Ok block
    ∧ build_word_groups
        {| rd_stats := Some [stat_empty_count; stat_hot; stat_empty_count] |}
        None = Ok block.
Proof.
  assert (Hb : ∃ block, generate_word_group_html stat_hot None = Ok block)
    by (eexists; reflexivity).
  destruct Hb as [block Hb]. exists block. split; [exact Hb|].
  refine (proj2 (word_groups_of_positive_stats _ None block) _).
  exists [block]. split.
  - change (rows_from (λ _ stat, generate_word_group_html stat None) 0
              [stat_hot] [block]).
    constructor; [exact Hb | constructor].
  - cbn [concat]. by rewrite app_nil_r.
Defined.

(** ** When the new-items builder fails *)

Lemma list_source_html_ok k source_data :
  ∃ group, list_source_html k source_data = Ok group.
Proof.
  unfold list_source_html.
  destruct (default [] (sd_titles source_data)) as [|t titles]; [by eexists|].
  destruct (list_item_rows 1 (take 10 (t :: titles))) as [rows Hrows].
  rewrite (accumulate_rows _ _ _ _ _ Hrows). cbn [mbind result_bind].
  by eexists.
Qed.

Lemma dict_source_html_ok names k item :
  ∃ group, dict_source_html (Some names) k item = Ok group.
Proof.
  destruct item as [source_id titles]. unfold dict_source_html.
  destruct titles as [|t titles]; [by eexists|].
  destruct (dict_item_rows 1 (take 10 (t :: titles))) as [rows Hrows].
  cbn [id_to_name_get mbind result_bind].
  rewrite (accumulate_rows _ _ _ _ _ Hrows). cbn [mbind result_bind].
  by eexists.
Qed.

Lemma accumulate_dict_without_names acc i sources e :
  accumulate (dict_source_html None) acc i sources = Raise e
  ↔ e = AttributeError "get" ∧ Exists dict_titled sources.
Proof.
  revert acc i. induction sources as [|[source_id titles] sources IH];
    intros acc i; cbn [accumulate].
  - split; [done | by intros [_ H%Exists_nil]].
  - rewrite Exists_cons. unfold dict_titled at 1. cbn [snd].
    destruct titles as [|t titles].
    + change (dict_source_html None i (source_id, [])) with (Ok ([] : str)).
      cbn [mbind result_bind]. rewrite IH. split.
      * intros [-> H]. split; [done | by right].
      * intros [-> [H|H]]; [done | done].
    + rewrite dict_source_html_without_names. cbn [mbind result_bind]. split.
      * intros [= <-]. split; [done | by left].
      * by intros [-> _].
Qed.

Lemma new_news_html_list_ok sources id_to_name :
  ∃ html, generate_new_news_html (NewList sources) id_to_name = Ok html.
Proof.
  destruct sources as [|s sources]; [by eexists|].
  unfold generate_new_news_html.
  destruct (accumulate_total list_source_html [] 0 (s :: sources))
    as [items ->]; [intros; apply list_source_html_ok|].
  cbn [mbind result_bind]. by eexists.
Qed.

Lemma new_news_html_dict_ok (sources : list (str * list (str * TitleData)))
    (names : gmap str str) :
  ∃ html, generate_new_news_html (NewDict sources) (Some names) = Ok html.
Proof.
  destruct sources as [|s sources]; [by eexists|].
  unfold generate_new_news_html.
  destruct (accumulate_total (dict_source_html (Some names)) [] 0
              (s :: sources)) as [items ->];
    [intros; apply dict_source_html_ok|].
  cbn [mbind result_bind]. by eexists.
Qed.

Lemma new_news_html_dict_without_names sources e :
  generate_new_news_html (NewDict sources) None = Raise e
  ↔ e = AttributeError "get" ∧ Exists dict_titled sources.
Proof.
  rewrite <- (accumulate_dict_without_names [] 0).
  destruct sources as [|s sources]; [done|].
  unfold generate_new_news_html.
  destruct (accumulate (dict_source_html None) [] 0 (s :: sources));
    cbn [mbind result_bind]; split; intros H;
    first [discriminate | exact H].
Qed.

(** X4: the new-items builder never fails on the sequence shape, nor on
    the mapping shape when [id_to_name] is a mapping; without
    [id_to_name] the mapping shape fails exactly when some source has a
    title, and then with [AttributeError]. *)
Theorem new_news_html_raises :
  (∀ sources id_to_name,
     ∃ html, generate_new_news_html (NewList sources) id_to_name = Ok html)
  ∧ (∀ sources (names : gmap str str),
       ∃ html, generate_new_news_html (NewDict sources) (Some names) = Ok html)
  ∧ (∀ sources e,
       generate_new_news_html (NewDict sources) None = Raise e
       ↔ e = AttributeError "get" ∧ Exists dict_titled sources).
Proof.
  split; [|split].
  - apply new_news_html_list_ok.
  - apply new_news_html_dict_ok.
  - apply new_news_html_dict_without_names.
Qed.

Lemma new_news_html_raises_witness :
  generate_new_news_html (NewDict [(u "src2", []); (u "src1", titles_long)])
    None = Raise (AttributeError "get").
Proof.
  refine (proj2 (proj2 (proj2 new_news_html_raises) _ _) _).
  split; [reflexivity|]. right. left. discriminate.
Defined.

(** ** The new-items section of the report *)

Lemma section_html_nonempty total_count items : section_html total_count items ≠ [].
Proof. unfold section_html. discriminate. Qed.

Lemma has_titles_total new_titles :
  has_titles new_titles = true ↔ 0 < total_count new_titles.
Proof.
  destruct new_titles as [sources|sources]; cbn [has_titles total_count].
  - induction sources as [|item sources IH]; cbn [existsb sum_list_with].
    + split; [done | lia].
    + rewrite orb_true_iff, IH, Nat.ltb_lt. lia.
  - induction sources as [|source sources IH]; cbn [existsb sum_list_with].
    + split; [done | lia].
    + rewrite orb_true_iff, IH, Nat.ltb_lt. lia.
Qed.

Lemma new_news_html_section new_titles id_to_name html :
  0 < total_count new_titles →
  generate_new_news_html new_titles id_to_name = Ok html →
  ∃ items, html = section_html (total_count new_titles) items.
Proof.
  intros Hpos H.
  destruct new_titles as [[|s sources]|[|s sources]];
    try (cbn in Hpos; lia); unfold generate_new_news_html in H;
    (destruct (accumulate _ _ _ _) as [items|]; [|discriminate]);
    ok_inv H; by exists items.
Qed.

(** X5: the new-items section of the report is either empty, when no
    source has a title, or the section of [generate_new_news_html] with
    a positive total: the report never shows a section for 0 items. *)
Theorem new_section_has_positive_total (new_titles : option NewTitles)
    id_to_name (html : str) :
  build_new_news_section new_titles id_to_name = Ok html →
  (html = [] ∧ ∀ shaped, new_titles = Some shaped → total_count shaped = 0)
  ∨ (∃ shaped items,
       new_titles = Some shaped ∧ 0 < total_count shaped
       ∧ html = section_html (total_count shaped) items).
Proof.
  intros H. destruct new_titles as [shaped|];
    [|left; split; [by injection H | done]].
  destruct (has_titles shaped) eqn:Hany.
  - right. apply has_titles_total in Hany.
    assert (Hgen : generate_new_news_html shaped id_to_name = Ok html).
    { apply has_titles_total in Hany. unfold build_new_news_section in H.
      rewrite Hany in H.
      by destruct shaped as [[|s sources]|[|s sources]]. }
    destruct (new_news_html_section _ _ _ Hany Hgen) as [items ->].
    by exists shaped, items.
  - left. assert (Hzero : total_count shaped = 0).
    { destruct (Z.lt_total 0 (total_count shaped)) as [Hpos|[Hz|Hneg]]; [|done|].
      - apply has_titles_total in Hpos. congruence.
      - destruct shaped; cbn [total_count] in Hneg; lia. }
    split; [|by intros ? [= <-]].
    unfold build_new_news_section in H. rewrite Hany in H.
    destruct shaped as [[|s sources]|[|s sources]]; by injection H.
Qed.

Lemma new_section_has_positive_total_witness :
  ∃ items,
    build_new_news_section (Some new_titles_long) (Some ∅) =
      Ok (section_html 11 items).
Proof.
  assert (Hgen : ∃ html,
             build_new_news_section (Some new_titles_long) (Some ∅) = Ok html)
    by (eexists; reflexivity).
  destruct Hgen as [html Hgen].
  destruct (new_section_has_positive_total _ _ _ Hgen)
    as [[_ Hzero] | (shaped & items & Hs & _ & ->)].
  - specialize (Hzero new_titles_long eq_refl). discriminate.
  - injection Hs as <-. exists items. exact Hgen.
Defined.

Lemma accumulate_untitled_sources {A} (row : nat → A → result str) acc i l :
  Forall (λ x, ∀ k, row k x = Ok []) l → accumulate row acc i l = Ok acc.
Proof.
  intros H. revert acc i. induction H as [|x l Hx _ IH]; intros acc i; [done|].
  cbn [accumulate]. rewrite Hx. cbn [mbind result_bind].
  rewrite app_nil_r. apply IH.
Qed.

(** X6: called on sources none of which has a title, the new-items
    builder returns a section for 0 items with no group, not the empty
    string, and does not read [id_to_name]; only an empty [new_titles]
    gives the empty string. *)
Theorem new_news_html_without_titles :
  (∀ sources id_to_name,
     sources ≠ [] → Forall (λ item, ¬ dict_titled item) sources →
     generate_new_news_html (NewDict sources) id_to_name =
       Ok (section_html 0 []))
  ∧ (∀ sources id_to_name,
       sources ≠ [] → Forall (λ source, ¬ list_titled source) sources →
       generate_new_news_html (NewList sources) id_to_name =
         Ok (section_html 0 []))
  ∧ (∀ id_to_name,
       generate_new_news_html (NewDict []) id_to_name = Ok []
       ∧ generate_new_news_html (NewList []) id_to_name = Ok []).
Proof.
  split; [|split]; [| |done].
  - intros sources idn Hne Hall.
    assert (Hzero : total_count (NewDict sources) = 0).
    { destruct (Z.lt_total 0 (total_count (NewDict sources)))
        as [Hpos|[Hz|Hneg]]; [|done|cbn [total_count] in Hneg; lia].
      apply has_titles_total in Hpos. cbn [has_titles] in Hpos.
      apply existsb_exists in Hpos as (item & Hin & Hlen).
      rewrite Forall_forall in Hall.
      apply list_elem_of_In, Hall in Hin. unfold dict_titled in Hin.
      destruct item.2; [done | by destruct Hin]. }
    destruct sources as [|s sources]; [done|].
    unfold generate_new_news_html. rewrite Hzero.
    rewrite accumulate_untitled_sources; [done|].
    eapply Forall_impl; [exact Hall|].
    intros [sid titles] Hx k. unfold dict_titled in Hx. cbn [snd] in Hx.
    destruct titles; [done | by destruct Hx].
  - intros sources idn Hne Hall.
    assert (Hzero : total_count (NewList sources) = 0).
    { destruct (Z.lt_total 0 (total_count (NewList sources)))
        as [Hpos|[Hz|Hneg]]; [|done|cbn [total_count] in Hneg; lia].
      apply has_titles_total in Hpos. cbn [has_titles] in Hpos.
      apply existsb_exists in Hpos as (source & Hin & Hlen).
      rewrite Forall_forall in Hall.
      apply list_elem_of_In, Hall in Hin. unfold list_titled in Hin.
      destruct (default [] (sd_titles source)); [done | by destruct Hin]. }
    destruct sources as [|s sources]; [done|].
    unfold generate_new_news_html. rewrite Hzero.
    rewrite accumulate_untitled_sources; [done|].
    eapply Forall_impl; [exact Hall|].
    intros source Hx k. unfold list_titled in Hx. unfold list_source_html.
    destruct (default [] (sd_titles source)); [done | by destruct Hx].
Qed.

Lemma new_news_html_without_titles_witness :
  generate_new_news_html (NewDict [(u "src1", []); (u "src2", [])]) None =
    Ok (section_html 0 [])
  ∧ generate_new_news_html
      (NewList [{| sd_source_name := Some (u "src1"); sd_titles := None |}])
      None = Ok (section_html 0 []).
Proof.
  destruct new_news_html_without_titles as (Hdict & Hlist & _). split.
  - refine (Hdict _ None _ _); [discriminate|].
    repeat constructor; by intros [].
  - refine (Hlist _ None _ _); [discriminate|].
    repeat constructor; by intros [].
Defined.

(** ** The display name as a part of the word *)

Lemma display_name_cases word :
  (∃ ws tok rest,
     word = hash :: ws ++ tok ++ rest ∧ tok ≠ [] ∧ all_in token_char tok
     ∧ display_name word = hash :: ws ++ tok)
  ∨ (∃ ws part rest,
       word = ws ++ part ++ rest ∧ part ≠ [] ∧ all_in nonspace part
       ∧ display_name word = part)
  ∨ (all_in isspace word ∧ display_name word = word).
Proof.
  unfold display_name. rewrite re_match_category.
  destruct (leading_tag word) as [g|] eqn:Hg.
  - left. apply leading_tag_Some in Hg
      as (ws & tok & rest & -> & -> & _ & Hne & Htok & _).
    exists ws, tok, rest. by rewrite strip_tag.
  - right. rewrite split_unfold. unfold lstrip.
    pose proof (span_app isspace word) as Hw.
    pose proof (span_all isspace word) as Hws.
    pose proof (span_stops isspace word) as Ht.
    destruct (span isspace word) as [ws t]. cbn [fst snd] in *. subst word.
    destruct t as [|c t].
    + right. by rewrite app_nil_r in *.
    + left. pose proof (span_app nonspace (c :: t)) as Hpr.
      pose proof (span_all nonspace (c :: t)) as Hpart.
      assert (Hne : (span nonspace (c :: t)).1 ≠ []).
      { simpl in Ht. simpl. unfold nonspace at 1. rewrite Ht. simpl.
        by destruct (span nonspace t). }
      destruct (span nonspace (c :: t)) as [part rest]. cbn [fst snd] in *.
      exists ws, part, rest. by rewrite Hpr.
Qed.

Lemma all_in_nonspace_stops s : all_in nonspace s → stops isspace s.
Proof.
  intros H. destruct s as [|c s]; [done|]. inversion H as [|? ? Hc _].
  unfold nonspace in Hc. cbn [stops]. by destruct (isspace c).
Qed.

Lemma strip_nonspace s : all_in nonspace s → strip s = s.
Proof.
  intros H. unfold strip, rstrip, lstrip.
  rewrite (span_stops_nil isspace s) by by apply all_in_nonspace_stops.
  cbn [snd]. rewrite (span_stops_nil isspace (reverse s)).
  - cbn [snd]. apply reverse_involutive.
  - apply all_in_nonspace_stops. unfold all_in. by apply Forall_reverse.
Qed.

(** X7: the display name of a hot group is a contiguous part of the
    word, it is empty only when the word is empty, and unless the word
    is blank it neither starts nor ends with whitespace. *)
Theorem display_name_part_of_word (word : str) :
  occurs (display_name word) word
  ∧ (display_name word = [] ↔ word = [])
  ∧ (all_in isspace word ∨ strip (display_name word) = display_name word).
Proof.
  destruct (display_name_cases word)
    as [(ws & tok & rest & Hw & Hne & Htok & ->)
       | [(ws & part & rest & Hw & Hne & Hpart & ->) | [Hblank ->]]].
  - split; [|split].
    + exists [], rest. rewrite Hw. cbn [app]. by rewrite <- app_assoc.
    + by rewrite Hw.
    + right. by apply strip_tag.
  - split; [|split].
    + by exists ws, rest.
    + split; [done|]. intros ->. symmetry in Hw.
      apply app_eq_nil in Hw as [_ Hw]. by apply app_eq_nil in Hw as [? _].
    + right. by apply strip_nonspace.
  - split; [|split].
    + exists [], []. by rewrite app_nil_r.
    + done.
    + by left.
Qed.

Lemma display_name_part_of_word_witness :
  occurs (display_name (u "#财经 重要新闻")) (u "#财经 重要新闻")
  ∧ display_name (u "#财经 重要新闻") ≠ [].
Proof.
  destruct (display_name_part_of_word (u "#财经 重要新闻"))
    as (Hocc & Hempty & _).
  split; [exact Hocc|]. intros H. apply Hempty in H.
  vm_compute in H. discriminate.
Defined.

(** ** The rank class in the two builders *)

Lemma py_min_first r rs : Forall (λ x, r ≤ x) rs → py_min r rs = r.
Proof.
  intros H. apply (is_min_unique _ _ (r :: rs)); [apply py_min_spec|].
  split; [by left|]. constructor; [lia | done].
Qed.

(** X8: for a record with ranks, the new-items builder takes the class
    from the first rank and the hot-group builder from the least rank;
    when the first rank is the least one both builders give the same
    class, and whenever the new-items class is "top" the hot-group class
    is "top" too. *)
Theorem rank_class_of_first_rank (title_info : TitleInfo) (r : Z) (rs : list Z) :
  ti_ranks title_info = Some (r :: rs) →
  first_rank title_info = r
  ∧ (Forall (λ x, r ≤ x) rs →
     new_rank_class (first_rank title_info) = rank_class (r :: rs))
  ∧ (new_rank_class (first_rank title_info) = u "top" →
     rank_class (r :: rs) = u "top").
Proof.
  intros Hr. unfold first_rank. rewrite Hr. split; [done|]. split.
  - intros Hle. unfold rank_class. rewrite (py_min_first r rs Hle).
    reflexivity.
  - unfold new_rank_class, rank_class.
    destruct (py_min_spec r rs) as [_ Hmin].
    apply Forall_cons in Hmin as [Hmin _].
    destruct (Z.leb_spec r 3); [|by destruct (r <=? 10)].
    intros _. by destruct (Z.leb_spec (py_min r rs) 3); [|lia].
Qed.

Lemma rank_class_of_first_rank_witness :
  first_rank title_ranked = 4
  ∧ new_rank_class (first_rank title_ranked) = rank_class [4; 9; 4].
Proof.
  destruct (rank_class_of_first_rank title_ranked 4 [9; 4] eq_refl)
    as (Hfirst & Hsame & _).
  split; [exact Hfirst|]. apply Hsame. repeat constructor; lia.
Defined.

(** ** A mapping rendered as a sequence *)

Lemma dict_item_html_as_list idx item :
  dict_item_html idx item = list_item_html idx (title_of_item item).
Proof.
  destruct item as [title [rank url]].
  unfold dict_item_html, list_item_html, first_rank, title_of_item.
  cbn [fst snd td_rank td_url ti_title ti_url ti_ranks default from_option].
  rewrite item_rows_agree. unfold id. by destruct rank as [rank|].
Qed.

Lemma accumulate_items_as_list acc idx items :
  accumulate dict_item_html acc idx items =
    accumulate list_item_html acc idx (title_of_item <$> items).
Proof.
  revert acc idx. induction items as [|item items IH]; intros acc idx; [done|].
  cbn [accumulate fmap list_fmap]. rewrite dict_item_html_as_list.
  destruct (list_item_html idx (title_of_item item)); [|done].
  cbn [mbind result_bind]. apply IH.
Qed.

Lemma dict_source_html_as_list names k k' item :
  dict_source_html (Some names) k item =
    list_source_html k' (source_of_item names item).
Proof.
  destruct item as [source_id titles].
  unfold dict_source_html, list_source_html, source_of_item.
  cbn [fst snd sd_source_name sd_titles default from_option id_to_name_get].
  unfold id. destruct titles as [|t titles]; [done|].
  cbn [mbind result_bind]. rewrite accumulate_items_as_list.
  rewrite <- fmap_take, source_groups_agree, length_fmap. reflexivity.
Qed.

(** X9: every mapping-shaped [new_titles], also one whose entries lack
    a rank or a url, renders with a mapping [id_to_name] to the same
    text as the sequence that gives each source its resolved name and
    each title its rank as the only element of [ranks]. *)
Theorem mapping_renders_as_sequence (names : gmap str str)
    (mapping : list (str * list (str * TitleData))) id_to_name :
  generate_new_news_html (NewDict mapping) (Some names) =
    generate_new_news_html (NewList (source_of_item names <$> mapping))
      id_to_name.
Proof.
  assert (Hacc : ∀ acc k k',
             accumulate (dict_source_html (Some names)) acc k mapping =
               accumulate list_source_html acc k'
                 (source_of_item names <$> mapping)).
  { induction mapping as [|item mapping IH]; intros acc k k'; [done|].
    cbn [accumulate fmap list_fmap].
    rewrite (dict_source_html_as_list names k k').
    destruct (list_source_html k' (source_of_item names item)); [|done].
    cbn [mbind result_bind]. apply IH. }
  assert (Htotal : total_count (NewDict mapping) =
                   total_count (NewList (source_of_item names <$> mapping))).
  { cbn [total_count]. f_equal. clear Hacc.
    induction mapping as [|item mapping IH]; [done|].
    cbn [fmap list_fmap sum_list_with]. rewrite IH. f_equal.
    cbn [source_of_item sd_titles default from_option]. unfold id.
    by rewrite length_fmap. }
  destruct mapping as [|item mapping]; [done|].
  unfold generate_new_news_html. rewrite Htotal.
  cbn [fmap list_fmap] in *. by rewrite (Hacc [] 0%nat 0%nat).
Qed.

(** ** When the parts of the report are rendered *)

Lemma accumulate_news_items_ok acc idx titles :
  (∃ out, accumulate news_item_html acc idx titles = Ok out)
  ↔ Forall (λ title_info, is_Some (ti_title title_info)) titles.
Proof.
  revert acc idx. induction titles as [|title_info titles IH]; intros acc idx.
  - cbn [accumulate]. split; [constructor | by eexists].
  - cbn [accumulate]. rewrite Forall_cons.
    destruct (ti_title title_info) as [title|] eqn:Ht.
    + destruct (news_item_html_titled idx title_info title Ht) as [row ->].
      cbn [mbind result_bind]. rewrite IH. split; [by split | by intros [_ ?]].
    + rewrite (news_item_html_untitled idx title_info Ht).
      cbn [mbind result_bind]. split.
      * by intros [out ?].
      * by intros [[title ?] _].
Qed.

Lemma generate_word_group_html_ok stat id_to_name :
  (∃ html, generate_word_group_html stat id_to_name = Ok html)
  ↔ titles_present stat.
Proof.
  unfold titles_present. rewrite <- (accumulate_news_items_ok [] 1).
  unfold generate_word_group_html.
  destruct (hot_level (st_count stat)) as [hot_class hot_text].
  destruct (accumulate news_item_html [] 1 (take 20 (st_titles stat)));
    cbn [mbind result_bind]; split; intros [out H];
    first [discriminate | by eexists].
Qed.

Lemma has_titles_dict_false sources :
  has_titles (NewDict sources) = false
  ↔ Forall (λ item, ¬ dict_titled item) sources.
Proof.
  cbn [has_titles]. unfold dict_titled.
  induction sources as [|[source_id titles] sources IH]; cbn [existsb snd].
  - split; [constructor | done].
  - rewrite Forall_cons, orb_false_iff, IH. cbn [snd].
    destruct titles as [|t titles]; cbn [length Nat.ltb Nat.leb].
    + split; intros [_ H]; (split; [|exact H]); [by intros Hne | done].
    + split; [by intros [? _] | intros [H _]; by destruct H].
Qed.

Lemma build_new_news_section_ok new_titles id_to_name :
  (∃ html, build_new_news_section new_titles id_to_name = Ok html)
  ↔ (id_to_name = None →
     ∀ sources, new_titles = Some (NewDict sources) →
                Forall (λ item, ¬ dict_titled item) sources).
Proof.
  destruct new_titles as [[sources|sources]|].
  - assert (Hsec : build_new_news_section (Some (NewDict sources)) id_to_name =
                   if has_titles (NewDict sources)
                   then generate_new_news_html (NewDict sources) id_to_name
                   else Ok []).
    { destruct sources as [|s sources]; reflexivity. }
    rewrite Hsec. destruct (has_titles (NewDict sources)) eqn:Hany.
    + destruct id_to_name as [names|].
      * split; [done | intros _; apply new_news_html_dict_ok].
      * split.
        -- intros [html H]. exfalso.
           assert (Hex : Exists dict_titled sources).
           { cbn [has_titles] in Hany.
             apply existsb_exists in Hany as (item & Hin & Hlen).
             apply Exists_exists. exists item.
             split; [by apply list_elem_of_In|].
             unfold dict_titled. by destruct item.2. }
           pose proof (proj2 (new_news_html_dict_without_names sources _)
                         (conj eq_refl Hex)) as Hraise.
           congruence.
        -- intros H. specialize (H eq_refl sources eq_refl).
           apply has_titles_dict_false in H. congruence.
    + split; [|by eexists]. intros _ _ sources' [= <-].
      by apply has_titles_dict_false.
  - split; [done|]. intros _.
    destruct sources as [|s sources]; [by eexists|].
    cbn [build_new_news_section].
    destruct (has_titles _); [apply new_news_html_list_ok | by eexists].
  - split; [done | by eexists].
Qed.

(** ** Which exception the parts of the report raise *)



(** ** Hot groups of a report in two parts *)

Lemma accumulate_app {A} (row : nat → A → result str) acc i l1 l2 :
  accumulate row acc i (l1 ++ l2) =
    accumulate row acc i l1 ≫= λ a, accumulate row a (i + length l1) l2.
Proof.
  revert acc i. induction l1 as [|x l1 IH]; intros acc i.
  - cbn [app accumulate length mbind result_bind]. by rewrite Nat.add_0_r.
  - cbn [app accumulate length]. destruct (row i x) as [r|]; [|done].
    cbn [mbind result_bind]. rewrite IH.
    by replace (S i + length l1)%nat with (i + S (length l1))%nat by lia.
Qed.

Lemma accumulate_acc {A} (row : nat → A → result str) acc i l out :
  accumulate row acc i l = Ok out
  ↔ ∃ r, accumulate row [] i l = Ok r ∧ out = acc ++ r.
Proof.
  split.
  - intros (rows & Hrows & ->)%accumulate_inv. exists (concat rows).
    by rewrite (accumulate_rows _ [] _ _ _ Hrows).
  - intros (r & (rows & Hrows & ->)%accumulate_inv & ->).
    by rewrite (accumulate_rows _ acc _ _ _ Hrows).
Qed.

(** X12: the hot groups of a report whose stats are [stats1 ++ stats2]
    are the hot groups of [stats1] followed by those of [stats2], and
    the whole is rendered exactly when both parts are: a stat is
    rendered independently of the stats around it. *)
Theorem build_word_groups_app (stats1 stats2 : list Stat) id_to_name
    (html : str) :
  build_word_groups {| rd_stats := Some (stats1 ++ stats2) |} id_to_name =
    Ok html
  ↔ ∃ html1 html2,
      build_word_groups {| rd_stats := Some stats1 |} id_to_name = Ok html1
      ∧ build_word_groups {| rd_stats := Some stats2 |} id_to_name = Ok html2
      ∧ html = html1 ++ html2.
Proof.
  unfold build_word_groups. cbn [rd_stats default from_option]. unfold id.
  rewrite accumulate_app.
  destruct (accumulate _ [] 0 stats1) as [html1|e]; cbn [mbind result_bind].
  - rewrite accumulate_acc.
    rewrite (accumulate_index _ [] (0 + length stats1) 0 stats2) by done.
    split.
    + intros (html2 & H2 & ->). by exists html1, html2.
    + intros (h1 & html2 & [= <-] & H2 & ->). by exists html2.
  - split; [done | by intros (? & ? & ? & _)].
Qed.

Lemma build_word_groups_app_witness :
  ∃ html1 html2,
    build_word_groups {| rd_stats := Some [stat_hot] |} None = Ok html1
    ∧ build_word_groups {| rd_stats := Some [stat_empty_count; stat_long] |}
        None = Ok html2
    ∧ build_word_groups
        {| rd_stats := Some [stat_hot; stat_empty_count; stat_long] |} None =
        Ok (html1 ++ html2).
Proof.
  assert (H1 : ∃ html1,
             build_word_groups {| rd_stats := Some [stat_hot] |} None =
               Ok html1) by (eexists; reflexivity).
  assert (H2 : ∃ html2,
             build_word_groups
               {| rd_stats := Some [stat_empty_count; stat_long] |} None =
               Ok html2) by (eexists; reflexivity).
  destruct H1 as [html1 H1], H2 as [html2 H2]. exists html1, html2.
  split; [exact H1|]. split; [exact H2|].
  refine (proj2 (build_word_groups_app [stat_hot]
                   [stat_empty_count; stat_long] None _) _).
  by exists html1, html2.
Defined.

(** ** A word that starts with whitespace *)

Lemma isspace_not_hash c : isspace c = true → is_hash c = false.
Proof.
  intros Hc. destruct (is_hash c) eqn:Hh; [|done].
  apply is_hash_eq in Hh as ->. by vm_compute in Hc.
Qed.

(** X13: the hash tag is recognised at the very start of the word only:
    the display name of a word that starts with whitespace is its first
    whitespace-delimited token, whole, also when that token has the
    form of a tag followed by more text. *)
Theorem display_name_after_whitespace (ws part rest : str) :
  ws ≠ [] → all_in isspace ws → part ≠ [] → all_in nonspace part →
  stops nonspace rest →
  display_name (ws ++ part ++ rest) = part.
Proof.
  intros Hne Hws Hpart Hall Hrest.
  destruct (split_first ws part rest Hws Hpart Hall Hrest) as [parts Hsplit].
  unfold display_name. rewrite re_match_category, Hsplit.
  destruct ws as [|c ws]; [done|]. inversion Hws as [|? ? Hc _].
  unfold leading_tag. cbn [app]. by rewrite (isspace_not_hash c Hc).
Qed.

Lemma display_name_after_whitespace_witness :
  display_name (u " #a#b c") = u "#a#b" ∧ display_name (u "#a#b c") = u "#a".
Proof.
  split; [|reflexivity].
  refine (display_name_after_whitespace (u " ") (u "#a#b") (u " c") _ _ _ _ _).
  - discriminate.
  - by repeat constructor.
  - discriminate.
  - by repeat constructor.
  - reflexivity.
Defined.

(** ** Stats that lack a key *)

(** Closes a goal one of whose hypotheses says that an absent key is
    present. *)
Ltac stat_absurd :=
  try match goal with
      | H : is_Some None |- _ => by destruct H
      | H : None = Some _ |- _ => discriminate H
      | H : Some _ = None |- _ => discriminate H
      end.

Lemma generate_word_group_html_dict_full stat id_to_name :
  generate_word_group_html_dict (stat_dict stat) id_to_name =
    generate_word_group_html stat id_to_name.
Proof.
  unfold generate_word_group_html_dict, read_stat, stat_dict.
  cbn [sk_word sk_count sk_titles subscript mbind result_bind].
  by destruct stat.
Qed.

(** X2: [generate_word_group_html] raises exactly when the stat lacks
    "word", "count" or "titles", with [KeyError] for the first of them
    that is missing, in this order, or when all three are there and one
    of the first 20 title records has no title, with [KeyError] for
    "title"; records beyond the first 20 cannot make it fail. *)
Theorem word_group_dict_raises_iff (stat : StatDict) id_to_name (e : exn) :
  generate_word_group_html_dict stat id_to_name = Raise e
  ↔ (sk_word stat = None ∧ e = KeyError "word")
    ∨ (is_Some (sk_word stat) ∧ sk_count stat = None ∧ e = KeyError "count")
    ∨ (is_Some (sk_word stat) ∧ is_Some (sk_count stat)
       ∧ sk_titles stat = None ∧ e = KeyError "titles")
    ∨ (is_Some (sk_word stat) ∧ is_Some (sk_count stat)
       ∧ ∃ titles,
           sk_titles stat = Some titles
           ∧ Exists untitled (take 20 titles) ∧ e = KeyError "title").
Proof.
  unfold generate_word_group_html_dict, read_stat.
  destruct stat as [[word|] [count|] [titles|]];
    cbn [sk_word sk_count sk_titles subscript mbind result_bind];
    try rewrite generate_word_group_html_raise_iff; cbn [st_titles];
    (split;
     [ intros H
     | intros [(H0 & H)
              |[(H0 & H1 & H)
               |[(H0 & H1 & H2 & H)|(H0 & H1 & ts & H2 & H3 & H)]]];
       stat_absurd; subst; try done ]).
  - destruct H as [-> H]. do 3 right.
    split; [by eexists|]. split; [by eexists|]. by exists titles.
  - by injection H2 as <-.
  - injection H as <-. right. right. left.
    split; [by eexists|]. by split; [eexists|].
  - injection H as <-. right. left. by split; [eexists|].
  - injection H as <-. right. left. by split; [eexists|].
  - injection H as <-. by left.
  - injection H as <-. by left.
  - injection H as <-. by left.
  - injection H as <-. by left.
Qed.

Lemma word_group_dict_raises_iff_witness :
  generate_word_group_html_dict stat_without_count None =
    Raise (KeyError "count")
  ∧ generate_word_group_html_dict stat_skipped None = Raise (KeyError "word")
  ∧ generate_word_group_html_dict (stat_dict stat_broken) None =
      Raise (KeyError "title").
Proof.
  split; [|split].
  - refine (proj2 (word_group_dict_raises_iff stat_without_count None _) _).
    right. left. split; [by eexists | done].
  - refine (proj2 (word_group_dict_raises_iff stat_skipped None _) _).
    by left.
  - refine (proj2 (word_group_dict_raises_iff (stat_dict stat_broken) None _) _).
    do 3 right. split; [by eexists|]. split; [by eexists|].
    eexists. split; [reflexivity|]. split; [|done]. right. left. reflexivity.
Defined.

Lemma generate_word_group_html_dict_ok stat id_to_name :
  (∃ html, generate_word_group_html_dict stat id_to_name = Ok html)
  ↔ is_Some (sk_word stat) ∧ is_Some (sk_count stat)
    ∧ ∃ titles,
        sk_titles stat = Some titles
        ∧ Forall (λ title_info, is_Some (ti_title title_info))
            (take 20 titles).
Proof.
  unfold generate_word_group_html_dict, read_stat.
  destruct stat as [[word|] [count|] [titles|]];
    cbn [sk_word sk_count sk_titles subscript mbind result_bind];
    try rewrite generate_word_group_html_ok; unfold titles_present;
    cbn [st_titles];
    (split; [intros H | intros (H0 & H1 & ts & H2 & H)]; stat_absurd).
  - split; [by eexists|]. split; [by eexists|]. by exists titles.
  - by injection H2 as <-.
  - by destruct H.
  - by destruct H.
  - by destruct H.
  - by destruct H.
  - by destruct H.
  - by destruct H.
  - by destruct H.
Qed.


Lemma stat_block_ok id_to_name k stat :
  (∃ block, stat_block id_to_name k stat = Ok block) ↔ stat_renders stat.
Proof.
  unfold stat_block, stat_renders.
  destruct (sk_count stat) as [count|] eqn:Hc;
    cbn [subscript mbind result_bind].
  - destruct (Z.ltb_spec 0 count) as [Hpos|Hpos].
    + rewrite generate_word_group_html_dict_ok, Hc. split.
      * intros (Hw & _ & Ht). exists count. by split.
      * intros (count' & [= <-] & H). destruct (H Hpos) as [Hw Ht].
        split; [done|]. split; [by eexists | done].
    + split; [|by eexists]. intros _. exists count. split; [done | lia].
  - split; [by intros [? ?] | by intros (? & ? & _)].
Qed.


Lemma accumulate_ok_iff {A} (row : nat → A → result str) (P : A → Prop)
    acc i l :
  (∀ k x, (∃ r, row k x = Ok r) ↔ P x) →
  (∃ out, accumulate row acc i l = Ok out) ↔ Forall P l.
Proof.
  intros Hrow. revert acc i. induction l as [|x l IH]; intros acc i.
  - cbn [accumulate]. split; [constructor | by eexists].
  - cbn [accumulate]. rewrite Forall_cons, <- (Hrow i x).
    destruct (row i x) as [r|e]; cbn [mbind result_bind].
    + rewrite IH. split; [intros H; split; [by eexists | done] | by intros [_ ?]].
    + split; [by intros [? ?] | by intros [[? ?] _]].
Qed.


Lemma build_word_groups_dict_ok report_data id_to_name :
  (∃ html, build_word_groups_dict report_data id_to_name = Ok html)
  ↔ Forall stat_renders (default [] (rk_stats report_data)).
Proof. apply accumulate_ok_iff. intros k x. apply stat_block_ok. Qed.


(** On stats that have the three keys the report on dicts is the report
    on their values. *)
Lemma stat_block_full id_to_name k stat :
  stat_block id_to_name k (stat_dict stat) =
    if 0 <? st_count stat then generate_word_group_html stat id_to_name
    else Ok [].
Proof.
  unfold stat_block. cbn [stat_dict sk_count subscript mbind result_bind].
  destruct (0 <? st_count stat); [|done].
  apply generate_word_group_html_dict_full.
Qed.

Lemma word_groups_dict_full id_to_name stats acc i :
  accumulate (stat_block id_to_name) acc i (stat_dict <$> stats) =
    accumulate
      (λ _ stat,
         if 0 <? st_count stat then generate_word_group_html stat id_to_name
         else Ok []) acc i stats.
Proof.
  revert acc i. induction stats as [|stat stats IH]; intros acc i; [done|].
  cbn [fmap list_fmap accumulate]. rewrite stat_block_full.
  destruct (if 0 <? st_count stat then _ else _); [|done].
  cbn [mbind result_bind]. apply IH.
Qed.

Lemma build_word_groups_dict_full report_data id_to_name :
  build_word_groups_dict (report_dict report_data) id_to_name =
    build_word_groups report_data id_to_name.
Proof.
  unfold build_word_groups_dict, build_word_groups, report_dict.
  cbn [rk_stats]. destruct (rd_stats report_data) as [stats|]; [|done].
  apply word_groups_dict_full.
Qed.

Lemma render_html_report_dict_full load_template update_time generation_time
    save_script report_data total_titles hot_news_count word_count failed_ids
    new_titles id_to_name :
  render_html_report_dict load_template update_time generation_time
    save_script (report_dict report_data) total_titles hot_news_count
    word_count failed_ids new_titles id_to_name =
  render_html_report load_template update_time generation_time save_script
    report_data total_titles hot_news_count word_count failed_ids new_titles
    id_to_name.
Proof.
  unfold render_html_report_dict, render_html_report.
  by rewrite build_word_groups_dict_full.
Qed.

Lemma render_html_report_dict_error_section (template : Slots → result str)
    update_time generation_time save_script report_data total_titles
    hot_news_count word_count failed_ids new_titles id_to_name html :
  render_html_report_dict (Ok template) update_time generation_time
    save_script report_data total_titles hot_news_count word_count failed_ids
    new_titles id_to_name = Ok html →
  ∃ slots, template slots = Ok html
    ∧ error_section slots = build_error_section failed_ids.
Proof.
  unfold render_html_report_dict. cbn [mbind result_bind].
  destruct (build_word_groups_dict _ _) as [groups|]; [|discriminate].
  cbn [mbind result_bind].
  destruct (build_new_news_section _ _) as [news|]; [|discriminate].
  cbn [mbind result_bind].
  intros H. eexists. split; [exact H | reflexivity].
Qed.

(** ** When the report is rendered, and how it fails *)

(** X10: with a template that accepts every slot, [render_html_report]
    returns a document exactly when every stat has a count, every stat
    with a positive count has a word and titles with a title in each of
    the first 20 records, and, if [id_to_name] is absent, no source of a
    mapping-shaped [new_titles] has a title.  Nothing else in the inputs
    can make it fail. *)
Theorem report_dict_succeeds_iff (template : Slots → result str)
    (update_time generation_time save_script : str)
    (report_data : ReportDict) (total_titles hot_news_count word_count : Z)
    (failed_ids : option (list str)) (new_titles : option NewTitles)
    (id_to_name : option (gmap str str)) :
  (∀ slots, ∃ html, template slots = Ok html) →
  (∃ html,
     render_html_report_dict (Ok template) update_time generation_time
       save_script report_data total_titles hot_news_count word_count
       failed_ids new_titles id_to_name = Ok html)
  ↔ Forall stat_renders (default [] (rk_stats report_data))
    ∧ (id_to_name = None →
       ∀ sources, new_titles = Some (NewDict sources) →
                  Forall (λ item, ¬ dict_titled item) sources).
Proof.
  intros Htemplate.
  rewrite <- (build_word_groups_dict_ok report_data id_to_name).
  rewrite <- build_new_news_section_ok.
  unfold render_html_report_dict. cbn [mbind result_bind].
  destruct (build_word_groups_dict report_data id_to_name) as [groups|];
    cbn [mbind result_bind].
  - destruct (build_new_news_section new_titles id_to_name) as [news|];
      cbn [mbind result_bind].
    + split; [intros _; split; by eexists | intros _; apply Htemplate].
    + split; [by intros [? ?] | by intros [_ [? ?]]].
  - split; [by intros [? ?] | by intros [[? ?] _]].
Qed.

Lemma report_dict_succeeds_iff_witness :
  (∃ html,
     render_html_report_dict (Ok template_sample) (u "08:00") (u "生成") []
       {| rk_stats := Some [stat_skipped; stat_dict stat_hot;
                            stat_dict stat_long] |}
       41 21 2 (Some [u "a"]) (Some new_titles_long) (Some ∅) = Ok html)
  ∧ ¬ (∃ html,
         render_html_report_dict (Ok template_sample) [] [] []
           {| rk_stats := Some [stat_without_count] |} 0 0 0 None None None =
           Ok html).
Proof.
  split.
  - refine (proj2 (report_dict_succeeds_iff template_sample _ _ _ _ _ _ _ _ _
                     (Some ∅) _) _).
    + intros slots. by eexists.
    + split; [|discriminate]. cbn [rk_stats default from_option]. unfold id.
      repeat constructor.
      * exists 0. split; [done | lia].
      * exists 20. split; [done|]. intros _. split; [by eexists|].
        exists []. split; [done | constructor].
      * exists 21. split; [done|]. intros _. split; [by eexists|].
        eexists. split; [reflexivity|]. cbn [st_titles stat_long].
        rewrite take_app_length'; [|reflexivity].
        repeat constructor; by exists (u "t1").
  - intros H.
    apply (report_dict_succeeds_iff template_sample) in H as [H _];
      [|intros slots; by eexists].
    cbn [rk_stats default from_option] in H. unfold id in H.
    apply Forall_cons in H as [(count & Hc & _) _]. discriminate.
Defined.


